(** * Tarea4pilares: sensor windows, alert predicates and the alert manager

    A shallow embedding of [src/Tarea4pilares.py].

    - Python [float] is IEEE 754 binary64; it is modelled by the Standard
      Library's [spec_float] with [prec = 53] and [emax = 1024], so that
      NaN, the infinities and signed zeros behave as in the interpreter.
    - Python [int] is unbounded: [Z].
    - Exceptions are values of type [resultado]; code that mutates the
      manager or prints runs in the state-and-exception monad [M], whose
      state survives a raised exception, as the heap does in Python. *)

From Stdlib Require Import ZArith List String Ascii Bool Lia.
From Stdlib Require Import SpecFloat DecimalString.
From Stdlib Require Import QArith Qpower.
Import ListNotations.

Close Scope Q_scope.

Local Open Scope string_scope.
Local Open Scope list_scope.

(** ** Exceptions *)

Inductive excepcion : Type :=
| TypeError (msg : string)
| IndexError (msg : string)
| OverflowError (msg : string)
| StatisticsError (msg : string).

Inductive resultado (A : Type) : Type :=
| Ok (a : A)
| Lanza (e : excepcion).

Arguments Ok {A} a.
Arguments Lanza {A} e.

Definition ligar {A B : Type} (r : resultado A) (k : A -> resultado B) : resultado B :=
  match r with
  | Ok a => k a
  | Lanza e => Lanza e
  end.

(** ** Python floats *)

Module PyFloat.

Definition prec : Z := 53.
Definition emax : Z := 1024.

Definition float : Type := spec_float.

(** [m * 2^e], correctly rounded; exact for the literals of the source. *)
Definition of_dyadic (m e : Z) : float := binary_normalize prec emax m e false.
Definition of_Z (z : Z) : float := of_dyadic z 0.

Definition zero : float := S754_zero false.
Definition nan : float := S754_nan.

Definition add : float -> float -> float := SFadd prec emax.
Definition mul : float -> float -> float := SFmul prec emax.
Definition div : float -> float -> float := SFdiv prec emax.
Definition sqrt : float -> float := SFsqrt prec emax.
Definition abs : float -> float := SFabs.

(** Python's [x <= y], [x < y] and [x >= y]: false as soon as one side is NaN. *)
Definition le (x y : float) : bool := SFleb x y.
Definition lt (x y : float) : bool := SFltb x y.
Definition ge (x y : float) : bool := SFleb y x.
Definition gt (x y : float) : bool := SFltb y x.

Definition is_nan (x : float) : bool :=
  match x with
  | S754_nan => true
  | _ => false
  end.

Definition is_finite (x : float) : bool :=
  match x with
  | S754_zero _ | S754_finite _ _ _ => true
  | _ => false
  end.

(** *** [statistics.mean]

    The library sums the data as exact fractions and converts the
    quotient once.  A finite float is the dyadic number [m * 2^e]. *)

Definition exact_ratio (x : float) : Z * Z :=
  match x with
  | S754_finite s m e => (cond_Zopp s (Zpos m), e)
  | _ => (0%Z, 0%Z)
  end.

Definition dyadic_add (a b : Z * Z) : Z * Z :=
  let '(m1, e1) := a in
  let '(m2, e2) := b in
  let e := Z.min e1 e2 in
  (m1 * 2 ^ (e1 - e) + m2 * 2 ^ (e2 - e), e)%Z.

Definition exact_sum (xs : list float) : Z * Z :=
  fold_left (fun acc x => dyadic_add acc (exact_ratio x)) xs (0%Z, 0%Z).

(** [float(Fraction(m * 2^e, n))]: one rounding to nearest, ties to even. *)
Definition of_quotient (m e : Z) (n : positive) : float :=
  match m with
  | Z0 => zero
  | Zpos p => div (S754_finite false p e) (S754_finite false n 0)
  | Zneg p => div (S754_finite true p e) (S754_finite false n 0)
  end.

(** When a NaN or an infinity is present, [_sum] keeps only the float sum
    of the non-finite data, and [mean] divides it by the count. *)
Definition nonfinite_sum (xs : list float) : float :=
  fold_left add (filter (fun x => negb (is_finite x)) xs) zero.

Definition mean (xs : list float) : resultado float :=
  match xs with
  | [] => Lanza (StatisticsError "mean requires at least one data point")
  | _ :: _ =>
      if forallb is_finite xs then
        let '(m, e) := exact_sum xs in
        Ok (of_quotient m e (Pos.of_nat (List.length xs)))
      else
        Ok (div (nonfinite_sum xs) (of_Z (Z.of_nat (List.length xs))))
  end.

(** *** The format specification [.2f] *)

Definition round_half_even (num den : Z) : Z :=
  let q := (num / den)%Z in
  match (2 * (num mod den) ?= den)%Z with
  | Lt => q
  | Gt => (q + 1)%Z
  | Eq => if Z.even q then q else (q + 1)%Z
  end.

(** The magnitude [m * 2^e] in hundredths, rounded. *)
Definition hundredths (m : positive) (e : Z) : Z :=
  if (0 <=? e)%Z then (Zpos m * 2 ^ e * 100)%Z
  else round_half_even (Zpos m * 100) (2 ^ (- e)).

Definition decimal (z : Z) : string := NilZero.string_of_uint (N.to_uint (Z.to_N z)).

Definition two_digits (z : Z) : string :=
  if (z <? 10)%Z then "0" ++ decimal z else decimal z.

Definition sign_prefix (s : bool) : string := if s then "-" else "".

Definition format_2f (x : float) : string :=
  match x with
  | S754_nan => "nan"
  | S754_infinity s => sign_prefix s ++ "inf"
  | S754_zero s => sign_prefix s ++ "0.00"
  | S754_finite s m e =>
      let c := hundredths m e in
      sign_prefix s ++ decimal (c / 100) ++ "." ++ two_digits (c mod 100)
  end.

End PyFloat.

Import PyFloat.

(** ** Enumerations *)

Inductive TipoNotificacion : Type := EMAIL | WEBHOOK | SMS.

Inductive NivelAlerta : Type := NORMAL | ADVERTENCIA | CRITICO.

Definition NivelAlerta_eqb (a b : NivelAlerta) : bool :=
  match a, b with
  | NORMAL, NORMAL | ADVERTENCIA, ADVERTENCIA | CRITICO, CRITICO => true
  | _, _ => false
  end.

(** ** Notifiers

    The three classes that satisfy the [Notificador] protocol; [enviar]
    prints one line. *)

Inductive Notificador : Type :=
| NotificadorEmail (_destinatario : string)
| NotificadorWebhook (_url : string)
| NotificadorSMS (_telefono : string).

Definition linea_impresa (n : Notificador) (mensaje : string) : string :=
  match n with
  | NotificadorEmail d => "[EMAIL a " ++ d ++ "] " ++ mensaje
  | NotificadorWebhook u => "[WEBHOOK " ++ u ++ "] " ++ mensaje
  | NotificadorSMS t => "[SMS a " ++ t ++ "] " ++ mensaje
  end.

(** ** Sensors *)

Inductive clase_sensor : Type :=
| SensorTemperatura (umbral : float)
| SensorVibracion (rms_umbral : float)
| SensorPresion (presion_max presion_min : float).

Record Sensor : Type := mkSensor {
  id : string;
  ventana : Z;
  _calibracion : float;
  _buffer : list float;
  clase : clase_sensor
}.

Definition con_buffer (s : Sensor) (b : list float) : Sensor :=
  mkSensor (id s) (ventana s) (_calibracion s) b (clase s).

(** The dataclass constructor with the [default_factory] buffer. *)
Definition nuevo_sensor (i : string) (w : Z) (c : float) (k : clase_sensor) : Sensor :=
  mkSensor i w c [] k.

(** [list.pop(0)] *)
Definition pop0 {A : Type} (l : list A) : resultado (A * list A) :=
  match l with
  | [] => Lanza (IndexError "pop from empty list")
  | x :: r => Ok (x, r)
  end.

Definition leer (valor : float) (s : Sensor) : resultado Sensor :=
  let v := add valor (_calibracion s) in
  let b := _buffer s ++ [v] in
  if (Z.of_nat (List.length b) >? ventana s)%Z then
    ligar (pop0 b) (fun xr => Ok (con_buffer s (snd xr)))
  else Ok (con_buffer s b).

Definition promedio (s : Sensor) : resultado float :=
  match _buffer s with
  | [] => Ok zero
  | _ :: _ => mean (_buffer s)
  end.

Definition en_alerta (s : Sensor) : resultado bool :=
  match clase s with
  | SensorTemperatura umbral =>
      ligar (promedio s) (fun p => Ok (ge p umbral))
  | SensorVibracion rms_umbral =>
      ligar (promedio s) (fun p => Ok (ge (abs p) rms_umbral))
  | SensorPresion presion_max presion_min =>
      ligar (promedio s) (fun p => Ok (negb (le presion_min p && le p presion_max)))
  end.

(** [x ** 2] on floats raises when a finite base overflows.  The square is
    taken correctly rounded; the C library's [pow] agrees whenever the
    square is representable. *)
Definition cuadrado (x : float) : resultado float :=
  let y := mul x x in
  if is_finite x && negb (is_finite y)
  then Lanza (OverflowError "(34, 'Numerical result out of range')")
  else Ok y.

Fixpoint suma_cuadrados (xs : list float) (acc : float) : resultado float :=
  match xs with
  | [] => Ok acc
  | x :: r => ligar (cuadrado x) (fun y => suma_cuadrados r (add acc y))
  end.

(** [** 0.5] is rendered by the correctly rounded square root. *)
Definition calcular_rms (s : Sensor) : resultado float :=
  match _buffer s with
  | [] => Ok zero
  | _ :: _ =>
      ligar (suma_cuadrados (_buffer s) (of_Z 0)) (fun t =>
      Ok (sqrt (div t (of_Z (Z.of_nat (List.length (_buffer s)))))))
  end.

(** Feeding a sequence of raw readings, one [leer] call each. *)
Fixpoint alimentar (valores : list float) (s : Sensor) : resultado Sensor :=
  match valores with
  | [] => Ok s
  | v :: r => ligar (leer v s) (alimentar r)
  end.

(** ** Alerts *)

Record Alerta : Type := mkAlerta {
  sensor_id : string;
  mensaje : string;
  hora : nat;
  nivel : NivelAlerta
}.

Definition es_critica (a : Alerta) : bool := NivelAlerta_eqb (nivel a) CRITICO.

(** Calling the class with the four keyword arguments.  [Alerta] is a plain
    class: its body holds annotations and one class attribute, it defines
    neither [__init__] nor [__new__] and carries no decorator, so the call
    reaches [object]'s constructor, which rejects any argument. *)
Definition Alerta_llamada (sid msg : string) (h : nat) (n : NivelAlerta)
  : resultado Alerta :=
  Lanza (TypeError "Alerta() takes no arguments").

(** The constructor as the specification describes it,
    [create(sensorId, message, timestamp, level) -> Alert]; kept apart from
    the program, to compare the two. *)
Definition Alerta_spec_create (sid msg : string) (h : nat) (n : NivelAlerta)
  : resultado Alerta :=
  Ok (mkAlerta sid msg h n).

(** ** The manager and the outside world *)

Record GestorAlertas : Type := mkGestor {
  _sensores : list Sensor;
  _notificadores : list Notificador;
  _historial : list Alerta
}.

(** [salida] is standard output; [envios] logs every [enviar] call with its
    receiver and argument; [reloj] counts the readings of the clock. *)
Record Mundo : Type := mkMundo {
  salida : list string;
  envios : list (Notificador * string);
  reloj : nat
}.

Record Estado : Type := mkEstado {
  gestor : GestorAlertas;
  mundo : Mundo
}.

Definition M (A : Type) : Type := Estado -> resultado A * Estado.

Definition ret {A : Type} (a : A) : M A := fun st => (Ok a, st).

Definition bind {A B : Type} (c : M A) (k : A -> M B) : M B :=
  fun st =>
    match c st with
    | (Ok a, st') => k a st'
    | (Lanza e, st') => (Lanza e, st')
    end.

Definition elevar {A : Type} (r : resultado A) : M A := fun st => (r, st).

Declare Scope prog_scope.
Delimit Scope prog_scope with prog.
Notation "x <- c ;; k" := (bind c (fun x => k))
  (at level 61, c at next level, right associativity) : prog_scope.
Notation "c ;;; k" := (bind c (fun _ => k))
  (at level 61, right associativity) : prog_scope.
Local Open Scope prog_scope.

Fixpoint para_cada {A : Type} (f : A -> M unit) (l : list A) : M unit :=
  match l with
  | [] => ret tt
  | x :: r => f x ;;; para_cada f r
  end.

Definition leer_gestor : M GestorAlertas := fun st => (Ok (gestor st), st).

(** [datetime.now()] *)
Definition datetime_now : M nat :=
  fun st =>
    let w := mundo st in
    (Ok (reloj w), mkEstado (gestor st) (mkMundo (salida w) (envios w) (S (reloj w)))).

(** [self._historial.append(alerta)] *)
Definition historial_append (a : Alerta) : M unit :=
  fun st =>
    let g := gestor st in
    (Ok tt, mkEstado (mkGestor (_sensores g) (_notificadores g) (_historial g ++ [a]))
                     (mundo st)).

(** [n.enviar(msg)] *)
Definition enviar (n : Notificador) (msg : string) : M unit :=
  fun st =>
    let w := mundo st in
    (Ok tt, mkEstado (gestor st)
                     (mkMundo (salida w ++ [linea_impresa n msg])
                              (envios w ++ [(n, msg)])
                              (reloj w))).

Definition texto_alerta (i : string) (p : float) : string :=
  "ALERTA: Sensor " ++ i ++ " en umbral (avg=" ++ format_2f p ++ ")".

Section Ciclo.

(** What calling the class [Alerta] does. *)
Variable construir : string -> string -> nat -> NivelAlerta -> resultado Alerta.

(** The body of the loop over the sensors. *)
Definition atender (s : Sensor) : M unit :=
  a <- elevar (en_alerta s) ;;
  if a : bool then
    p <- elevar (promedio s) ;;
    let msg := texto_alerta (id s) p in
    ahora <- datetime_now ;;
    alerta <- elevar (construir (id s) msg ahora CRITICO) ;;
    historial_append alerta ;;;
    g <- leer_gestor ;;
    para_cada (fun n => enviar n msg) (_notificadores g)
  else ret tt.

Definition evaluar_con : M unit :=
  g <- leer_gestor ;;
  para_cada atender (_sensores g).

End Ciclo.

Definition evaluar_y_notificar : M unit := evaluar_con Alerta_llamada.

(** ** Several cycles

    The manager holds the sensor objects themselves, so readings made from
    outside between two cycles are seen by the next one.  A session is a
    sequence of such readings, by position in the manager's list, and of
    calls to the cycle. *)

Inductive accion : Type :=
| Leer (i : nat) (valor : float)
| Evaluar.

Fixpoint reemplazar {A : Type} (i : nat) (x : A) (l : list A) : list A :=
  match l, i with
  | [], _ => []
  | _ :: r, O => x :: r
  | y :: r, S j => y :: reemplazar j x r
  end.

(** [sensores[i].leer(valor)] *)
Definition leer_en (i : nat) (valor : float) (ss : list Sensor) : resultado (list Sensor) :=
  match nth_error ss i with
  | None => Lanza (IndexError "list index out of range")
  | Some s => ligar (leer valor s) (fun s' => Ok (reemplazar i s' ss))
  end.

Definition con_sensores (ss : list Sensor) (st : Estado) : Estado :=
  let g := gestor st in
  mkEstado (mkGestor ss (_notificadores g) (_historial g)) (mundo st).

Definition paso (ciclo : M unit) (a : accion) : M unit :=
  match a with
  | Leer i v =>
      fun st =>
        match leer_en i v (_sensores (gestor st)) with
        | Ok ss => (Ok tt, con_sensores ss st)
        | Lanza e => (Lanza e, st)
        end
  | Evaluar => ciclo
  end.

Definition ejecutar_con (ciclo : M unit) (acciones : list accion) : M unit :=
  para_cada (paso ciclo) acciones.

Definition ejecutar : list accion -> M unit := ejecutar_con evaluar_y_notificar.

(** A cycle that leaves out the sensor at position [j]: the yardstick for
    what that sensor contributes. *)
Definition omitir {A : Type} (j : nat) (l : list A) : list A :=
  firstn j l ++ skipn (S j) l.

Definition evaluar_omitiendo_con
  (construir : string -> string -> nat -> NivelAlerta -> resultado Alerta) (j : nat)
  : M unit :=
  g <- leer_gestor ;;
  para_cada (atender construir) (omitir j (_sensores g)).

Definition evaluar_omitiendo : nat -> M unit := evaluar_omitiendo_con Alerta_llamada.

(** [siempre P acciones ss]: the sensors satisfy [P] at every [Evaluar] of
    the session, starting from the sensors [ss]. *)
Fixpoint siempre (P : list Sensor -> Prop) (acciones : list accion) (ss : list Sensor)
  : Prop :=
  match acciones with
  | [] => True
  | Leer i v :: r =>
      match leer_en i v ss with
      | Ok ss' => siempre P r ss'
      | Lanza _ => True
      end
  | Evaluar :: r => P ss /\ siempre P r ss
  end.

Definition callado (s : Sensor) : Prop := en_alerta s = Ok false.

Definition alarmado (s : Sensor) : Prop := en_alerta s = Ok true.

Definition callado_en (j : nat) (ss : list Sensor) : Prop :=
  exists s, nth_error ss j = Some s /\ callado s.

(** The state after a clock reading. *)
Definition tras_reloj (st : Estado) : Estado :=
  let w := mundo st in
  mkEstado (gestor st) (mkMundo (salida w) (envios w) (S (reloj w))).

Definition no_acepta_argumentos : excepcion := TypeError "Alerta() takes no arguments".

(** ** Vocabulary of the statements *)

(** The rational number [m * 2^e]. *)
Definition valor (a : Z * Z) : Q := (inject_Z (fst a) * Qpower 2 (snd a))%Q.

Definition suma_racional (xs : list float) : Q :=
  fold_right (fun x acc => (valor (exact_ratio x) + acc)%Q) 0%Q xs.

Definition ventana_tras_leer (w : Z) (b : list float) (v : float) : list float :=
  if (Z.of_nat (List.length (b ++ [v])) >? w)%Z then tl (b ++ [v]) else b ++ [v].

Definition calibrados (c : float) (valores : list float) : list float :=
  map (fun v => add v c) valores.

Definition ultimos {A : Type} (k : nat) (l : list A) : list A :=
  skipn (List.length l - k) l.

(** ** Concrete sensors and states *)

Definition presion_con_nan : Sensor :=
  mkSensor "P1" 5 zero [nan] (SensorPresion (of_Z 100) (of_Z 1)).

Definition presion_cotas_invertidas : Sensor :=
  mkSensor "P2" 5 zero [of_Z 10] (SensorPresion (of_Z 5) (of_Z 10)).

Definition vibracion_simetrica : Sensor :=
  mkSensor "V1" 5 zero [of_Z 3; of_Z (-3); of_Z 3; of_Z (-3)]
           (SensorVibracion (of_dyadic 5 (-1))).

Definition T1_nuevo : Sensor := nuevo_sensor "T1" 5 zero (SensorTemperatura (of_Z 80)).

Definition T1 : Sensor :=
  mkSensor "T1" 5 zero [of_Z 85; of_Z 85; of_Z 85] (SensorTemperatura (of_Z 80)).

Definition dos_notificadores : list Notificador :=
  [NotificadorEmail "ops@planta.mx"; NotificadorSMS "5550100"].

Definition estado_T1 : Estado :=
  mkEstado (mkGestor [T1] dos_notificadores []) (mkMundo [] [] 0).

Definition T2_callado : Sensor :=
  mkSensor "T2" 5 zero [of_Z 20; of_Z 21] (SensorTemperatura (of_Z 80)).

Definition estado_callado : Estado :=
  mkEstado (mkGestor [T2_callado] dos_notificadores []) (mkMundo [] [] 0).

(** ** Vocabulary of the further properties *)

(** The length of a buffer of length [len0] after [n] readings under the
    window [w]: it grows up to the window and never shrinks. *)
Definition longitud_tras (len0 n : nat) (w : Z) : nat :=
  Z.to_nat (Z.max (Z.of_nat len0) (Z.min (Z.of_nat (len0 + n)) w)).

Definition es_presion (k : clase_sensor) : bool :=
  match k with
  | SensorPresion _ _ => true
  | _ => false
  end.

(** The sign bit is clear, or the value is NaN. *)
Definition signo_positivo (x : float) : bool :=
  match x with
  | S754_zero s | S754_infinity s | S754_finite s _ _ => negb s
  | S754_nan => true
  end.

Definition misma_clase (n1 n2 : Notificador) : bool :=
  match n1, n2 with
  | NotificadorEmail _, NotificadorEmail _
  | NotificadorWebhook _, NotificadorWebhook _
  | NotificadorSMS _, NotificadorSMS _ => true
  | _, _ => false
  end.

(** *** The cycle as a function of its inputs *)

Definition en_alerta_b (s : Sensor) : bool :=
  match en_alerta s with
  | Ok true => true
  | _ => false
  end.

(** The message the cycle builds for a sensor. *)
Definition mensaje_de (s : Sensor) : string :=
  match promedio s with
  | Ok p => texto_alerta (id s) p
  | Lanza _ => EmptyString
  end.

(** The constructor applied to the sensors in alert, in order, with the
    successive clock readings, up to its first exception. *)
Fixpoint construir_todas
  (construir : string -> string -> nat -> NivelAlerta -> resultado Alerta)
  (t : nat) (alarmados : list Sensor) : list Alerta * option excepcion :=
  match alarmados with
  | [] => ([], None)
  | s :: r =>
      match construir (id s) (mensaje_de s) t CRITICO with
      | Lanza e => ([], Some e)
      | Ok a =>
          let '(l, o) := construir_todas construir (S t) r in
          (a :: l, o)
      end
  end.

(** Each message to every notifier, message by message. *)
Definition difusion (ns : list Notificador) (msgs : list string)
  : list (Notificador * string) :=
  flat_map (fun m => map (fun n => (n, m)) ns) msgs.

Definition renglones (es : list (Notificador * string)) : list string :=
  map (fun nm => linea_impresa (fst nm) (snd nm)) es.

Definition tras_ciclo
  (construir : string -> string -> nat -> NivelAlerta -> resultado Alerta)
  (ss : list Sensor) (st : Estado) : resultado unit * Estado :=
  let g := gestor st in
  let w := mundo st in
  let alarmados := filter en_alerta_b ss in
  let '(nuevas, fallo) := construir_todas construir (reloj w) alarmados in
  let es := difusion (_notificadores g)
                     (map mensaje_de (firstn (List.length nuevas) alarmados)) in
  (match fallo with
   | None => Ok tt
   | Some e => Lanza e
   end,
   mkEstado (mkGestor (_sensores g) (_notificadores g) (_historial g ++ nuevas))
            (mkMundo (salida w ++ renglones es) (envios w ++ es)
                     (reloj w + List.length nuevas
                      + match fallo with None => 0 | Some _ => 1 end))).

(** The state after one alert was built, recorded and sent to everyone. *)
Definition tras_alerta (a : Alerta) (msg : string) (st : Estado) : Estado :=
  let g := gestor st in
  let w := mundo st in
  let es := map (fun n => (n, msg)) (_notificadores g) in
  mkEstado (mkGestor (_sensores g) (_notificadores g) (_historial g ++ [a]))
           (mkMundo (salida w ++ renglones es) (envios w ++ es) (S (reloj w))).

(** * Properties of the sensors *)

(** ** Float comparisons *)

Lemma SFcompare_antisym (x y : float) (c : comparison) :
  SFcompare x y = Some c -> SFcompare y x = Some (CompOpp c).
Proof.
  destruct x as [sx|sx| |sx mx ex], y as [sy|sy| |sy my ey]; simpl;
    try discriminate;
    try (destruct sx; intros [= <-]; reflexivity);
    try (destruct sy; intros [= <-]; reflexivity);
    try (intros [= <-]; reflexivity).
  - destruct sx, sy; intros [= <-]; reflexivity.
  - assert (Hm : Pos.compare_cont Eq my mx = CompOpp (Pos.compare_cont Eq mx my))
      by (rewrite (Pos.compare_cont_antisym mx my Eq); reflexivity).
    rewrite (Z.compare_antisym ex ey), Hm.
    destruct sx, sy; intros [= <-]; try reflexivity;
      destruct (ex ?= ey)%Z; simpl; try reflexivity;
      destruct (Pos.compare_cont Eq mx my); reflexivity.
Qed.

Lemma SFcompare_nan (x y : float) :
  SFcompare x y = None -> is_nan x = true \/ is_nan y = true.
Proof.
  destruct x, y; simpl; auto; discriminate.
Qed.

Lemma SFcompare_refl (x : float) : is_nan x = false -> SFcompare x x = Some Eq.
Proof.
  destruct x as [s|s| |s m e]; simpl; try discriminate; intros _.
  - reflexivity.
  - destruct s; reflexivity.
  - rewrite Z.compare_refl, Pos.compare_cont_refl. destruct s; reflexivity.
Qed.

Lemma ge_refl (x : float) : is_nan x = false -> ge x x = true.
Proof.
  intros H. unfold ge, SFleb. rewrite (SFcompare_refl x H). reflexivity.
Qed.

Lemma negb_le_lt (x y : float) :
  is_nan x = false -> is_nan y = false -> negb (le x y) = lt y x.
Proof.
  intros Hx Hy. unfold le, lt, SFleb, SFltb.
  destruct (SFcompare x y) as [c|] eqn:E.
  - rewrite (SFcompare_antisym x y c E). destruct c; reflexivity.
  - destruct (SFcompare_nan x y E); congruence.
Qed.

Lemma gt_ge (x y : float) : gt x y = true -> ge x y = true.
Proof.
  unfold gt, ge, SFltb, SFleb. destruct (SFcompare y x) as [[| |]|]; auto.
Qed.

Lemma lt_no_ge (x y : float) : lt x y = true -> ge x y = false.
Proof.
  unfold lt, ge, SFltb, SFleb. destruct (SFcompare x y) as [c|] eqn:E; [|discriminate].
  rewrite (SFcompare_antisym x y c E). destruct c; simpl; congruence.
Qed.

Lemma nan_compara_falso (x : float) :
  le nan x = false /\ le x nan = false /\ lt nan x = false /\ lt x nan = false.
Proof.
  unfold le, lt, SFleb, SFltb, nan. destruct x; simpl; auto.
Qed.

(** ** The sum inside [mean] is exact *)

Lemma potencia_de_dos (e d : Z) :
  (0 <= d)%Z -> (inject_Z (2 ^ d) * Qpower 2 e == Qpower 2 (d + e))%Q.
Proof.
  intros H. rewrite Zpower_Qpower by exact H.
  rewrite Qpower_plus by discriminate. reflexivity.
Qed.

Lemma valor_dyadic_add (a b : Z * Z) :
  (valor (dyadic_add a b) == valor a + valor b)%Q.
Proof.
  destruct a as [m1 e1], b as [m2 e2]. unfold valor, dyadic_add. cbn [fst snd].
  rewrite inject_Z_plus, !inject_Z_mult, Qmult_plus_distr_l, <- !Qmult_assoc.
  rewrite !potencia_de_dos by lia.
  replace (e1 - Z.min e1 e2 + Z.min e1 e2)%Z with e1 by lia.
  replace (e2 - Z.min e1 e2 + Z.min e1 e2)%Z with e2 by lia.
  reflexivity.
Qed.

Lemma exact_sum_desde (xs : list float) (acc : Z * Z) :
  (valor (fold_left (fun a x => dyadic_add a (exact_ratio x)) xs acc)
   == valor acc + suma_racional xs)%Q.
Proof.
  revert acc. induction xs as [|x r IH]; intros acc; simpl.
  - rewrite Qplus_0_r. reflexivity.
  - rewrite IH, valor_dyadic_add, Qplus_assoc. reflexivity.
Qed.

Lemma exact_sum_es_la_suma (xs : list float) :
  (valor (exact_sum xs) == suma_racional xs)%Q.
Proof.
  unfold exact_sum. rewrite exact_sum_desde. unfold valor at 1. simpl.
  rewrite Qplus_0_l. reflexivity.
Qed.

(** ** The mean and the average never raise *)

Lemma mean_no_vacio (x : float) (r : list float) : exists p, mean (x :: r) = Ok p.
Proof.
  unfold mean. destruct (forallb is_finite (x :: r)).
  - destruct (exact_sum (x :: r)) as [m e]. eexists; reflexivity.
  - eexists; reflexivity.
Qed.

Lemma promedio_total (s : Sensor) : exists p, promedio s = Ok p.
Proof.
  unfold promedio. destruct (_buffer s) as [|x r].
  - exists zero; reflexivity.
  - apply mean_no_vacio.
Qed.

Lemma en_alerta_total (s : Sensor) : exists b, en_alerta s = Ok b.
Proof.
  unfold en_alerta. destruct (promedio_total s) as [p ->].
  destruct (clase s); simpl; eexists; reflexivity.
Qed.

(** ** One reading *)

Lemma leer_ok (valor : float) (s : Sensor) :
  leer valor s =
  Ok (con_buffer s (ventana_tras_leer (ventana s) (_buffer s) (add valor (_calibracion s)))).
Proof.
  unfold leer, ventana_tras_leer.
  destruct (Z.of_nat (List.length (_buffer s ++ [add valor (_calibracion s)])) >? ventana s)%Z;
    [|reflexivity].
  destruct (_buffer s); reflexivity.
Qed.

Lemma ultimos_length {A : Type} (k : nat) (l : list A) :
  List.length (ultimos k l) = Nat.min (List.length l) k.
Proof. unfold ultimos. rewrite length_skipn. lia. Qed.

Lemma tl_skipn {A : Type} (n : nat) (l : list A) : tl (skipn n l) = skipn (S n) l.
Proof.
  revert l; induction n as [|n IH]; intros [|x l]; try reflexivity.
  change (tl (skipn n l) = skipn (S n) l). apply IH.
Qed.

Lemma ultimos_snoc {A : Type} (k : nat) (l : list A) (y : A) :
  (0 < k)%nat ->
  ultimos k (l ++ [y]) =
  if (k <? S (Nat.min (List.length l) k))%nat then tl (ultimos k l ++ [y])
  else ultimos k l ++ [y].
Proof.
  intros Hk. unfold ultimos. rewrite length_app. simpl.
  destruct (Nat.ltb_spec k (S (Nat.min (List.length l) k))) as [H|H].
  - assert (Hl : (k <= List.length l)%nat) by lia.
    replace (List.length l + 1 - k)%nat with (S (List.length l - k)) by lia.
    rewrite skipn_app.
    replace (S (List.length l - k) - List.length l)%nat with 0%nat by lia.
    simpl skipn at 2. rewrite <- tl_skipn.
    assert (Hne : skipn (List.length l - k) l <> []).
    { intros E. apply (f_equal (@List.length A)) in E.
      rewrite length_skipn in E. simpl in E. lia. }
    destruct (skipn (List.length l - k) l); [congruence | reflexivity].
  - replace (List.length l + 1 - k)%nat with 0%nat by lia.
    replace (List.length l - k)%nat with 0%nat by lia. reflexivity.
Qed.

Lemma ventana_tras_leer_ultimos (w : Z) (l : list float) (y : float) :
  (0 < w)%Z ->
  ventana_tras_leer w (ultimos (Z.to_nat w) l) y = ultimos (Z.to_nat w) (l ++ [y]).
Proof.
  intros Hw. unfold ventana_tras_leer.
  rewrite (ultimos_snoc (Z.to_nat w) l y) by lia.
  rewrite length_app, ultimos_length. simpl.
  destruct (Nat.ltb_spec (Z.to_nat w) (S (Nat.min (List.length l) (Z.to_nat w))));
    destruct (Z.gtb_spec (Z.of_nat (Nat.min (List.length l) (Z.to_nat w) + 1)) w);
    try reflexivity; lia.
Qed.

Lemma alimentar_ultimos (valores previos : list float) (s : Sensor) :
  (0 < ventana s)%Z ->
  _buffer s = ultimos (Z.to_nat (ventana s)) previos ->
  alimentar valores s =
  Ok (con_buffer s (ultimos (Z.to_nat (ventana s))
                            (previos ++ calibrados (_calibracion s) valores))).
Proof.
  revert previos s. induction valores as [|v r IH]; intros previos s Hw Hb.
  - simpl. rewrite app_nil_r, <- Hb. destruct s; reflexivity.
  - simpl. rewrite leer_ok. simpl.
    rewrite (IH (previos ++ [add v (_calibracion s)])); simpl; trivial.
    + rewrite <- app_assoc. reflexivity.
    + rewrite Hb. apply ventana_tras_leer_ultimos. exact Hw.
Qed.

(** C3: fed [N] raw readings from an empty buffer, a sensor with a positive
    window [W] and offset [c] holds exactly the last [min N W] values
    [raw + c], oldest first; its buffer has length [min N W], and after
    every prefix of the readings the length is at most [W]. *)
Theorem leer_ventana_deslizante (s : Sensor) (valores : list float) :
  (0 < ventana s)%Z ->
  _buffer s = [] ->
  exists s',
    alimentar valores s = Ok s' /\
    Z.of_nat (List.length (_buffer s')) = Z.min (Z.of_nat (List.length valores)) (ventana s) /\
    _buffer s' =
      ultimos (Nat.min (List.length valores) (Z.to_nat (ventana s)))
              (calibrados (_calibracion s) valores) /\
    (forall k, exists sk,
        alimentar (firstn k valores) s = Ok sk /\
        (Z.of_nat (List.length (_buffer sk)) <= ventana s)%Z).
Proof.
  intros Hw Hb.
  assert (H0 : _buffer s = ultimos (Z.to_nat (ventana s)) []) by (rewrite Hb; reflexivity).
  eexists. split; [apply (alimentar_ultimos valores [] s Hw H0)|].
  simpl. repeat split.
  - rewrite ultimos_length. unfold calibrados. rewrite length_map. lia.
  - unfold ultimos, calibrados. rewrite length_map. f_equal. lia.
  - intros k. eexists. split; [apply (alimentar_ultimos (firstn k valores) [] s Hw H0)|].
    simpl. rewrite ultimos_length. lia.
Qed.

Lemma leer_ventana_deslizante_witness :
  exists s',
    alimentar [of_Z 1; of_Z 2; of_Z 3; of_Z 4]
              (nuevo_sensor "S" 3 (of_Z 5) (SensorTemperatura (of_Z 80))) = Ok s' /\
    _buffer s' = [of_Z 7; of_Z 8; of_Z 9].
Proof.
  destruct (leer_ventana_deslizante
              (nuevo_sensor "S" 3 (of_Z 5) (SensorTemperatura (of_Z 80)))
              [of_Z 1; of_Z 2; of_Z 3; of_Z 4]) as [s' [H1 [_ [H3 _]]]].
  - reflexivity.
  - reflexivity.
  - exists s'. split; [exact H1 | exact H3].
Defined.

(** ** The average *)

(** C9: [promedio] is [0.0] on an empty buffer and [statistics.mean] of the
    buffer otherwise; in both cases it returns a value and raises nothing
    (the guard keeps [mean] away from the empty list, its only error). *)
Theorem promedio_media_o_cero (s : Sensor) :
  (_buffer s = [] -> promedio s = Ok zero) /\
  (_buffer s <> [] -> promedio s = mean (_buffer s)) /\
  (exists p, promedio s = Ok p) /\
  mean [] = Lanza (StatisticsError "mean requires at least one data point") /\
  (_buffer s <> [] -> forallb is_finite (_buffer s) = true ->
   exists m e,
     promedio s = Ok (of_quotient m e (Pos.of_nat (List.length (_buffer s)))) /\
     (valor (m, e) == suma_racional (_buffer s))%Q).
Proof.
  split; [|split; [|split; [|split]]].
  - intros H. unfold promedio. rewrite H. reflexivity.
  - intros H. unfold promedio. destruct (_buffer s); [congruence | reflexivity].
  - apply promedio_total.
  - reflexivity.
  - intros Hne Hfin. pose proof (exact_sum_es_la_suma (_buffer s)) as Hs.
    unfold promedio, mean. destruct (_buffer s) as [|x r] eqn:Hb; [congruence|].
    rewrite Hfin. destruct (exact_sum (x :: r)) as [m e].
    exists m, e. split; [reflexivity | exact Hs].
Qed.

Lemma promedio_media_o_cero_witness :
  promedio (nuevo_sensor "S" 5 zero (SensorTemperatura (of_Z 80))) = Ok zero /\
  promedio (mkSensor "S" 5 zero [of_Z 1; of_Z 2; of_Z 6] (SensorTemperatura (of_Z 80)))
  = Ok (of_Z 3).
Proof.
  split.
  - apply (proj1 (promedio_media_o_cero
                    (nuevo_sensor "S" 5 zero (SensorTemperatura (of_Z 80))))).
    reflexivity.
  - rewrite (proj1 (proj2 (promedio_media_o_cero
              (mkSensor "S" 5 zero [of_Z 1; of_Z 2; of_Z 6] (SensorTemperatura (of_Z 80)))))).
    + reflexivity.
    + discriminate.
Defined.

(** Calibration is applied before windowing: raw 10, offset 5, window 1. *)
Example calibracion_antes_de_ventana :
  ligar (leer (of_Z 10) (nuevo_sensor "S" 1 (of_Z 5) (SensorTemperatura (of_Z 80)))) promedio
  = Ok (of_Z 15).
Proof. reflexivity. Qed.

(** ** Non-positive windows *)

Lemma leer_ventana_no_positiva (v : float) (s : Sensor) :
  (ventana s <= 0)%Z -> _buffer s = [] -> leer v s = Ok s.
Proof.
  intros Hw Hb. rewrite leer_ok. unfold ventana_tras_leer. rewrite Hb. simpl.
  destruct (Z.gtb_spec 1 (ventana s)); [|lia].
  simpl. rewrite <- Hb. destruct s; reflexivity.
Qed.

(** With a non-positive window every reading evicts the oldest entry, so
    the length of the buffer never changes. *)
Lemma leer_ventana_no_positiva_longitud (v : float) (s : Sensor) :
  (ventana s <= 0)%Z ->
  exists s', leer v s = Ok s' /\
             _buffer s' = tl (_buffer s ++ [add v (_calibracion s)]) /\
             List.length (_buffer s') = List.length (_buffer s).
Proof.
  intros Hw. rewrite leer_ok. eexists. split; [reflexivity|].
  simpl. unfold ventana_tras_leer.
  destruct (Z.gtb_spec (Z.of_nat (List.length (_buffer s ++ [add v (_calibracion s)])))
                       (ventana s)) as [_|H];
    [|rewrite length_app in H; simpl in H; lia].
  split; [reflexivity|]. destruct (_buffer s); simpl; [reflexivity|].
  rewrite length_app. simpl. lia.
Qed.

(** C10: with [ventana <= 0] a sensor that starts empty, as the constructor
    leaves it, is empty again after every [leer]: the reading just appended
    is evicted at once.  Emptiness is thus invariant under any sequence of
    readings, and [promedio] stays [0.0]. *)
Theorem ventana_no_positiva_buffer_vacio (s : Sensor) :
  (ventana s <= 0)%Z ->
  _buffer s = [] ->
  (forall v, exists s', leer v s = Ok s' /\ _buffer s' = []) /\
  (forall valores, exists s',
      alimentar valores s = Ok s' /\ _buffer s' = [] /\ promedio s' = Ok zero).
Proof.
  intros Hw Hb. split.
  - intros v. exists s. split; [apply leer_ventana_no_positiva; assumption | exact Hb].
  - intros valores. exists s. split; [|split; [exact Hb|]].
    + induction valores as [|v r IH]; [reflexivity|].
      simpl. rewrite (leer_ventana_no_positiva v s Hw Hb). exact IH.
    + unfold promedio. rewrite Hb. reflexivity.
Qed.

Lemma ventana_no_positiva_buffer_vacio_witness :
  exists s',
    alimentar [of_Z 1; of_Z 2; of_Z 3]
              (nuevo_sensor "S" 0 (of_Z 5) (SensorTemperatura (of_Z 80))) = Ok s' /\
    _buffer s' = [] /\ promedio s' = Ok zero.
Proof.
  apply (proj2 (ventana_no_positiva_buffer_vacio
                  (nuevo_sensor "S" 0 (of_Z 5) (SensorTemperatura (of_Z 80)))
                  ltac:(simpl; lia) eq_refl)).
Defined.

(** ** Alert predicates *)

(** C4: a temperature sensor alerts exactly when Python's [>=] holds between
    its average and [umbral]: an average equal to the threshold alerts, as
    does one above it, and one below it does not. *)
Theorem temperatura_en_alerta (i : string) (w : Z) (c : float) (b : list float)
        (umbral : float) :
  let s := mkSensor i w c b (SensorTemperatura umbral) in
  exists p,
    promedio s = Ok p /\
    en_alerta s = Ok (ge p umbral) /\
    (en_alerta s = Ok true <-> ge p umbral = true) /\
    (is_nan p = false -> p = umbral -> en_alerta s = Ok true) /\
    (gt p umbral = true -> en_alerta s = Ok true) /\
    (lt p umbral = true -> en_alerta s = Ok false).
Proof.
  intros s. destruct (promedio_total s) as [p Hp]. exists p.
  assert (He : en_alerta s = Ok (ge p umbral)).
  { unfold en_alerta. simpl. rewrite Hp. reflexivity. }
  split; [exact Hp|]. split; [exact He|]. rewrite He. repeat split.
  - intros [= H]. exact H.
  - intros ->. reflexivity.
  - intros Hn <-. rewrite (ge_refl p Hn). reflexivity.
  - intros H. rewrite (gt_ge p umbral H). reflexivity.
  - intros H. rewrite (lt_no_ge p umbral H). reflexivity.
Qed.

(** The boundary, on readings: three readings of 80 against threshold 80. *)
Example temperatura_en_el_umbral :
  en_alerta (mkSensor "T" 5 zero [of_Z 80; of_Z 80; of_Z 80] (SensorTemperatura (of_Z 80)))
  = Ok true /\
  en_alerta (mkSensor "T" 5 zero [of_Z 80; of_Z 80; of_Z 79] (SensorTemperatura (of_Z 80)))
  = Ok false.
Proof. split; reflexivity. Qed.

(** What the pressure predicate computes, as the source writes it. *)
Lemma presion_en_alerta_codigo (i : string) (w : Z) (c : float) (b : list float)
      (pmax pmin : float) :
  let s := mkSensor i w c b (SensorPresion pmax pmin) in
  exists p,
    promedio s = Ok p /\
    en_alerta s = Ok (negb (le pmin p && le p pmax)).
Proof.
  intros s. destruct (promedio_total s) as [p Hp]. exists p. split; [exact Hp|].
  unfold en_alerta. simpl. rewrite Hp. reflexivity.
Qed.

(** C5 as stated fails on a NaN average: the sensor that ingested NaN
    alerts, although its average is neither below the minimum nor above the
    maximum. *)
Lemma presion_nan_contraejemplo :
  leer nan (nuevo_sensor "P1" 5 zero (SensorPresion (of_Z 100) (of_Z 1)))
    = Ok presion_con_nan /\
  promedio presion_con_nan = Ok nan /\
  en_alerta presion_con_nan = Ok true /\
  lt nan (of_Z 1) = false /\
  gt nan (of_Z 100) = false.
Proof. repeat split. Qed.

(** C5 as stated fails a second time when the bounds are inverted: with
    [presion_min = 10], [presion_max = 5] and an average of 10, none of
    them NaN, the average equals a bound and the sensor alerts. *)
Lemma presion_cotas_invertidas_contraejemplo :
  leer (of_Z 10) (nuevo_sensor "P2" 5 zero (SensorPresion (of_Z 5) (of_Z 10)))
    = Ok presion_cotas_invertidas /\
  promedio presion_cotas_invertidas = Ok (of_Z 10) /\
  is_nan (of_Z 10) = false /\ is_nan (of_Z 5) = false /\
  en_alerta presion_cotas_invertidas = Ok true.
Proof. repeat split. Qed.

(** C5, amended: a pressure sensor alerts exactly when
    [presion_min <= average <= presion_max] is false.  When neither the
    average nor a bound is NaN this is: average strictly below the minimum
    or strictly above the maximum.  If moreover
    [presion_min <= presion_max], an average equal to a bound does not
    alert; if instead [presion_max < presion_min], an average equal to a
    bound alerts.  A NaN average alerts. *)
Theorem presion_en_alerta (i : string) (w : Z) (c : float) (b : list float)
        (pmax pmin : float) :
  let s := mkSensor i w c b (SensorPresion pmax pmin) in
  exists p,
    promedio s = Ok p /\
    en_alerta s = Ok (negb (le pmin p && le p pmax)) /\
    (is_nan p = false -> is_nan pmin = false -> is_nan pmax = false ->
     (en_alerta s = Ok true <-> lt p pmin = true \/ gt p pmax = true) /\
     (p = pmin \/ p = pmax -> le pmin pmax = true -> en_alerta s = Ok false) /\
     (p = pmin \/ p = pmax -> lt pmax pmin = true -> en_alerta s = Ok true)) /\
    (is_nan p = true -> en_alerta s = Ok true).
Proof.
  intros s. destruct (presion_en_alerta_codigo i w c b pmax pmin) as [p [Hp He]].
  fold s in Hp, He. exists p. split; [exact Hp|]. split; [exact He|]. split.
  - intros Np Nmin Nmax.
    assert (Hiff : en_alerta s = Ok true <-> lt p pmin = true \/ gt p pmax = true).
    { rewrite He.
      rewrite negb_andb, (negb_le_lt pmin p Nmin Np), (negb_le_lt p pmax Np Nmax).
      unfold gt, lt. split.
      - intros [= H]. apply orb_true_iff in H. exact H.
      - intros H. apply orb_true_iff in H. rewrite H. reflexivity. }
    split; [exact Hiff|]. split.
    + rewrite He. intros [-> | ->] Hle.
      * unfold le in *. rewrite Hle. change (SFleb pmin pmin) with (ge pmin pmin).
        rewrite (ge_refl pmin Nmin). reflexivity.
      * unfold le in *. rewrite Hle. change (SFleb pmax pmax) with (ge pmax pmax).
        rewrite (ge_refl pmax Nmax). reflexivity.
    + intros Hb Hlt. apply Hiff. destruct Hb as [-> | ->].
      * right. exact Hlt.
      * left. exact Hlt.
  - intros Np. rewrite He. destruct p; try discriminate.
    destruct (nan_compara_falso pmin) as [_ [H _]]. unfold nan in H. rewrite H.
    reflexivity.
Qed.

Lemma presion_en_alerta_witness :
  en_alerta (mkSensor "P" 5 zero [of_Z 100; of_Z 100] (SensorPresion (of_Z 100) (of_Z 1)))
  = Ok false.
Proof.
  destruct (presion_en_alerta "P" 5 zero [of_Z 100; of_Z 100] (of_Z 100) (of_Z 1))
    as [p [Hp [_ [H _]]]].
  injection Hp as <-.
  apply (proj1 (proj2 (H eq_refl eq_refl eq_refl))).
  - right. reflexivity.
  - reflexivity.
Defined.

(** C6: a vibration sensor alerts exactly when [abs(average) >= rms_umbral];
    the decision is a function of the average and the threshold alone, so
    [calcular_rms] plays no part in it; and on the readings [3, -3, 3, -3]
    with threshold 2.5 the sensor does not alert while its RMS, 3.0, is at
    or above the threshold. *)
Theorem vibracion_en_alerta :
  (forall (i : string) (w : Z) (c : float) (b : list float) (rms_umbral : float),
      let s := mkSensor i w c b (SensorVibracion rms_umbral) in
      exists p,
        promedio s = Ok p /\
        en_alerta s = Ok (ge (abs p) rms_umbral) /\
        (en_alerta s = Ok true <-> ge (abs p) rms_umbral = true)) /\
  (forall (i i' : string) (w w' : Z) (c c' : float) (b b' : list float) (u : float),
      promedio (mkSensor i w c b (SensorVibracion u))
      = promedio (mkSensor i' w' c' b' (SensorVibracion u)) ->
      en_alerta (mkSensor i w c b (SensorVibracion u))
      = en_alerta (mkSensor i' w' c' b' (SensorVibracion u))) /\
  (alimentar [of_Z 3; of_Z (-3); of_Z 3; of_Z (-3)]
             (nuevo_sensor "V1" 5 zero (SensorVibracion (of_dyadic 5 (-1))))
   = Ok vibracion_simetrica /\
   promedio vibracion_simetrica = Ok zero /\
   en_alerta vibracion_simetrica = Ok false /\
   calcular_rms vibracion_simetrica = Ok (of_Z 3) /\
   ge (of_Z 3) (of_dyadic 5 (-1)) = true).
Proof.
  split; [|split].
  - intros i w c b u s. destruct (promedio_total s) as [p Hp]. exists p.
    assert (He : en_alerta s = Ok (ge (abs p) u)).
    { unfold en_alerta. simpl. rewrite Hp. reflexivity. }
    repeat split; try assumption.
    + rewrite He. intros [= H]. exact H.
    + rewrite He. intros ->. reflexivity.
  - intros i i' w w' c c' b b' u H. unfold en_alerta. simpl. rewrite H. reflexivity.
  - repeat split.
Qed.

(** * Properties of the cycle *)

(** Exposes the plumbing of [M], so that a program applied to a state
    reduces to a case analysis on its fallible steps. *)
Ltac desplegar :=
  unfold evaluar_y_notificar, evaluar_omitiendo, evaluar_con, evaluar_omitiendo_con,
    bind, elevar, ret, leer_gestor.

Section CicloGeneral.

Variable construir : string -> string -> nat -> NivelAlerta -> resultado Alerta.

Lemma atender_callado (s : Sensor) (st : Estado) :
  callado s -> atender construir s st = (Ok tt, st).
Proof.
  intros H. unfold atender. desplegar. rewrite H. reflexivity.
Qed.

Lemma para_cada_callados (ss : list Sensor) (st : Estado) :
  Forall callado ss -> para_cada (atender construir) ss st = (Ok tt, st).
Proof.
  induction 1 as [|s r Hs _ IH]; [reflexivity|].
  simpl. unfold bind. rewrite (atender_callado s st Hs). exact IH.
Qed.

Lemma para_cada_omitir (j : nat) (ss : list Sensor) (s : Sensor) (st : Estado) :
  nth_error ss j = Some s -> callado s ->
  para_cada (atender construir) ss st
  = para_cada (atender construir) (omitir j ss) st.
Proof.
  revert ss st. induction j as [|j IH]; intros [|x r] st Hn Hs; try discriminate.
  - injection Hn as ->. unfold omitir. simpl. unfold bind.
    rewrite (atender_callado s st Hs). reflexivity.
  - unfold omitir. simpl. unfold bind.
    destruct (atender construir x st) as [[[]|e] st']; [|reflexivity].
    apply (IH r st' Hn Hs).
Qed.

End CicloGeneral.

Lemma atender_alarmado_lanza (s : Sensor) (st : Estado) :
  alarmado s ->
  atender Alerta_llamada s st = (Lanza no_acepta_argumentos, tras_reloj st).
Proof.
  intros H. unfold atender. desplegar. rewrite H.
  destruct (promedio_total s) as [p ->]. reflexivity.
Qed.

Lemma para_cada_alarmado_lanza (ss : list Sensor) (st : Estado) :
  Exists alarmado ss ->
  para_cada (atender Alerta_llamada) ss st = (Lanza no_acepta_argumentos, tras_reloj st).
Proof.
  induction ss as [|s r IH]; intros H; [inversion H|].
  simpl. unfold bind. destruct (en_alerta_total s) as [[|] Hs].
  - rewrite (atender_alarmado_lanza s st Hs). reflexivity.
  - rewrite (atender_callado Alerta_llamada s st Hs). apply IH.
    inversion H as [? ? Hh|? ? Ht]; subst; [|exact Ht].
    unfold alarmado in Hh. congruence.
Qed.

Lemma evaluar_lanza (st : Estado) :
  Exists alarmado (_sensores (gestor st)) ->
  evaluar_y_notificar st = (Lanza no_acepta_argumentos, tras_reloj st).
Proof.
  intros H. desplegar. apply para_cada_alarmado_lanza. exact H.
Qed.

Lemma evaluar_callados (st : Estado) :
  Forall callado (_sensores (gestor st)) ->
  evaluar_y_notificar st = (Ok tt, st).
Proof.
  intros H. desplegar. apply para_cada_callados. exact H.
Qed.

Lemma alarmado_dec (s : Sensor) : {alarmado s} + {~ alarmado s}.
Proof.
  unfold alarmado. destruct (en_alerta s) as [[|]|e].
  - left; reflexivity.
  - right; discriminate.
  - right; discriminate.
Qed.

(** Whatever the sensors, a cycle of the program changes neither the
    manager nor what was sent and printed. *)
Lemma evaluar_marco (st : Estado) :
  gestor (snd (evaluar_y_notificar st)) = gestor st /\
  envios (mundo (snd (evaluar_y_notificar st))) = envios (mundo st) /\
  salida (mundo (snd (evaluar_y_notificar st))) = salida (mundo st).
Proof.
  destruct (Exists_dec alarmado (_sensores (gestor st)) alarmado_dec) as [H|H].
  - rewrite (evaluar_lanza st H). repeat split.
  - rewrite (evaluar_callados st).
    + repeat split.
    + apply Forall_Exists_neg in H. apply Forall_forall. intros s Hs.
      rewrite Forall_forall in H. specialize (H s Hs). unfold alarmado, callado in *.
      destruct (en_alerta_total s) as [[|] E]; congruence.
Qed.

(** ** The cycle of the claim: one temperature sensor, two notifiers *)

(** C1, on the program: the sensor is in alert and the message is the
    expected one, but the call [Alerta(...)] raises [TypeError], so the
    cycle ends with no alert in the history and no [enviar] call. *)
Theorem ciclo_T1_lanza_TypeError :
  alimentar [of_Z 85; of_Z 85; of_Z 85] T1_nuevo = Ok T1 /\
  promedio T1 = Ok (of_Z 85) /\
  en_alerta T1 = Ok true /\
  texto_alerta (id T1) (of_Z 85) = "ALERTA: Sensor T1 en umbral (avg=85.00)" /\
  fst (evaluar_y_notificar estado_T1) = Lanza (TypeError "Alerta() takes no arguments") /\
  _historial (gestor (snd (evaluar_y_notificar estado_T1))) = [] /\
  envios (mundo (snd (evaluar_y_notificar estado_T1))) = [] /\
  salida (mundo (snd (evaluar_y_notificar estado_T1))) = [].
Proof. repeat split. Qed.

(** With the constructor of the specification in place of the class call,
    the same cycle does what C1 describes: the loop itself is right. *)
Example ciclo_T1_con_constructor_de_la_especificacion :
  let msg := "ALERTA: Sensor T1 en umbral (avg=85.00)" in
  let r := evaluar_con Alerta_spec_create estado_T1 in
  fst r = Ok tt /\
  _historial (gestor (snd r)) = [mkAlerta "T1" msg 0 CRITICO] /\
  forallb es_critica (_historial (gestor (snd r))) = true /\
  envios (mundo (snd r))
  = [(NotificadorEmail "ops@planta.mx", msg); (NotificadorSMS "5550100", msg)].
Proof. repeat split. Qed.

(** C2, on the program: [leer] and [en_alerta] always return a value, and
    a cycle returns when no sensor is in alert; but as soon as one sensor
    is in alert the cycle raises [TypeError] at the construction of the
    alert. *)
Theorem evaluar_lanza_si_hay_alerta :
  (forall v s, exists s', leer v s = Ok s') /\
  (forall s, exists b, en_alerta s = Ok b) /\
  (forall st, Forall callado (_sensores (gestor st)) ->
              fst (evaluar_y_notificar st) = Ok tt) /\
  (forall st, Exists alarmado (_sensores (gestor st)) ->
              fst (evaluar_y_notificar st)
              = Lanza (TypeError "Alerta() takes no arguments")).
Proof.
  split; [|split; [|split]].
  - intros v s. rewrite leer_ok. eexists; reflexivity.
  - apply en_alerta_total.
  - intros st H. rewrite (evaluar_callados st H). reflexivity.
  - intros st H. rewrite (evaluar_lanza st H). reflexivity.
Qed.

Lemma evaluar_lanza_si_hay_alerta_witness :
  fst (evaluar_y_notificar estado_T1) = Lanza (TypeError "Alerta() takes no arguments").
Proof.
  apply (proj2 (proj2 (proj2 evaluar_lanza_si_hay_alerta)) estado_T1
               (Exists_cons_hd alarmado T1 [] eq_refl)).
Defined.

(** C7, on the program: with a sensor in alert, two cycles in a row (the
    caller surviving the first exception) both raise [TypeError]; the
    history gains no entry and no [enviar] call is made, instead of two
    entries and two calls per notifier. *)
Theorem dos_ciclos_con_alerta (st : Estado) :
  Exists alarmado (_sensores (gestor st)) ->
  let r1 := evaluar_y_notificar st in
  let r2 := evaluar_y_notificar (snd r1) in
  fst r1 = Lanza (TypeError "Alerta() takes no arguments") /\
  fst r2 = Lanza (TypeError "Alerta() takes no arguments") /\
  _historial (gestor (snd r2)) = _historial (gestor st) /\
  envios (mundo (snd r2)) = envios (mundo st).
Proof.
  intros H r1 r2. subst r1 r2.
  rewrite (evaluar_lanza st H). simpl.
  rewrite (evaluar_lanza (tras_reloj st) H). repeat split.
Qed.

Lemma dos_ciclos_con_alerta_witness :
  let r2 := evaluar_y_notificar (snd (evaluar_y_notificar estado_T1)) in
  List.length (_historial (gestor (snd r2))) = 0 /\
  List.length (envios (mundo (snd r2))) = 0.
Proof.
  pose proof (dos_ciclos_con_alerta estado_T1 (Exists_cons_hd alarmado T1 [] eq_refl))
    as H.
  cbv zeta in H. destruct H as [_ [_ [Hh He]]].
  cbv zeta. rewrite Hh, He. split; reflexivity.
Defined.

(** ** Sensors that are not in alert *)

Section SesionGeneral.

Variable construir : string -> string -> nat -> NivelAlerta -> resultado Alerta.

Lemma enviar_todos_sensores (msg : string) (ns : list Notificador) (st : Estado) :
  _sensores (gestor (snd (para_cada (fun n => enviar n msg) ns st)))
  = _sensores (gestor st).
Proof.
  revert st. induction ns as [|n r IH]; intros st; [reflexivity|].
  simpl. unfold bind. simpl. rewrite IH. reflexivity.
Qed.

Lemma atender_sensores (s : Sensor) (st : Estado) :
  _sensores (gestor (snd (atender construir s st))) = _sensores (gestor st).
Proof.
  unfold atender. desplegar.
  destruct (en_alerta s) as [[|]|e]; try reflexivity.
  destruct (promedio s) as [p|e]; try reflexivity. simpl.
  destruct (construir _ _ _ _) as [a|e]; try reflexivity. simpl.
  rewrite enviar_todos_sensores. reflexivity.
Qed.

Lemma para_cada_atender_sensores (ss : list Sensor) (st : Estado) :
  _sensores (gestor (snd (para_cada (atender construir) ss st)))
  = _sensores (gestor st).
Proof.
  revert st. induction ss as [|s r IH]; intros st; [reflexivity|].
  simpl. unfold bind.
  pose proof (atender_sensores s st) as H.
  destruct (atender construir s st) as [[[]|e] st']; simpl in *.
  - rewrite IH. exact H.
  - exact H.
Qed.

Lemma evaluar_omitir (j : nat) (st : Estado) :
  callado_en j (_sensores (gestor st)) ->
  evaluar_con construir st = evaluar_omitiendo_con construir j st.
Proof.
  intros [s [Hn Hs]]. desplegar.
  apply (para_cada_omitir construir j _ s st Hn Hs).
Qed.

(** A sensor that is not in alert at any cycle of a session can be left
    out of every cycle: result, history, sends and output are the same. *)
Lemma sesion_omitir (j : nat) (acciones : list accion) (st : Estado) :
  siempre (callado_en j) acciones (_sensores (gestor st)) ->
  ejecutar_con (evaluar_con construir) acciones st
  = ejecutar_con (evaluar_omitiendo_con construir j) acciones st.
Proof.
  unfold ejecutar_con. revert st.
  induction acciones as [|a r IH]; intros st H; [reflexivity|].
  destruct a as [i v|]; simpl in *; unfold bind; simpl.
  - destruct (leer_en i v (_sensores (gestor st))) as [ss|e]; [|reflexivity].
    apply IH. exact H.
  - destruct H as [Hj Hr]. rewrite <- (evaluar_omitir j st Hj).
    pose proof (para_cada_atender_sensores (_sensores (gestor st)) st) as Hs.
    change (para_cada (atender construir) (_sensores (gestor st)) st)
      with (evaluar_con construir st) in Hs.
    destruct (evaluar_con construir st) as [[[]|e] st']; [|reflexivity].
    simpl in Hs. apply IH. rewrite Hs. exact Hr.
Qed.

(** With no sensor in alert at any cycle, a session changes neither the
    history nor the world, and its cycles raise nothing. *)
Lemma sesion_callada (acciones : list accion) (st : Estado) :
  siempre (Forall callado) acciones (_sensores (gestor st)) ->
  let r := ejecutar_con (evaluar_con construir) acciones st in
  _historial (gestor (snd r)) = _historial (gestor st) /\
  _notificadores (gestor (snd r)) = _notificadores (gestor st) /\
  mundo (snd r) = mundo st /\
  (forall e, fst r = Lanza e -> exists m, e = IndexError m).
Proof.
  unfold ejecutar_con. revert st.
  induction acciones as [|a r IH]; intros st H.
  - simpl. repeat split. discriminate.
  - destruct a as [i v|]; simpl in *; unfold bind; simpl.
    + unfold leer_en in *.
      destruct (nth_error (_sensores (gestor st)) i) as [s|].
      * rewrite leer_ok in *. simpl in *.
        match goal with
        | |- context [para_cada _ r ?st1] => destruct (IH st1 H) as [H1 [H2 [H3 H4]]]
        end.
        repeat split; assumption.
      * simpl. repeat split. intros e [= <-]. eexists; reflexivity.
    + destruct H as [Hq Hr]. unfold evaluar_con, bind, leer_gestor.
      rewrite (para_cada_callados construir _ st Hq). apply IH. exact Hr.
Qed.

Lemma ciclos_callados (n : nat) (st : Estado) :
  Forall callado (_sensores (gestor st)) ->
  ejecutar_con (evaluar_con construir) (repeat Evaluar n) st = (Ok tt, st).
Proof.
  intros H. unfold ejecutar_con.
  induction n as [|n IH]; [reflexivity|].
  simpl. unfold bind. unfold evaluar_con at 1. unfold bind, leer_gestor.
  rewrite (para_cada_callados construir _ st H). exact IH.
Qed.

End SesionGeneral.

(** C8: in any session of readings and cycles, a sensor that is not in
    alert at any cycle contributes nothing: leaving it out of every cycle
    gives the same result, history, sends and output.  When no sensor is in
    alert at any cycle, the history and the world (sends, output) after the
    session are those before it and no cycle raises; in particular any
    number of consecutive cycles returns the very same state. *)
Theorem sensor_callado_sin_efecto :
  (forall (j : nat) (acciones : list accion) (st : Estado),
      siempre (callado_en j) acciones (_sensores (gestor st)) ->
      ejecutar acciones st = ejecutar_con (evaluar_omitiendo j) acciones st) /\
  (forall (acciones : list accion) (st : Estado),
      siempre (Forall callado) acciones (_sensores (gestor st)) ->
      _historial (gestor (snd (ejecutar acciones st))) = _historial (gestor st) /\
      mundo (snd (ejecutar acciones st)) = mundo st /\
      (forall e, fst (ejecutar acciones st) = Lanza e -> exists m, e = IndexError m)) /\
  (forall (n : nat) (st : Estado),
      Forall callado (_sensores (gestor st)) ->
      ejecutar (repeat Evaluar n) st = (Ok tt, st)).
Proof.
  split; [|split].
  - intros j acciones st H. apply (sesion_omitir Alerta_llamada j acciones st H).
  - intros acciones st H.
    destruct (sesion_callada Alerta_llamada acciones st H) as [H1 [_ [H3 H4]]].
    repeat split; assumption.
  - intros n st H. apply (ciclos_callados Alerta_llamada n st H).
Qed.

Lemma sensor_callado_sin_efecto_witness :
  ejecutar [Evaluar; Evaluar; Evaluar] estado_callado = (Ok tt, estado_callado) /\
  _historial (gestor (snd (ejecutar [Evaluar; Leer 0 (of_Z 30); Evaluar] estado_callado)))
  = [].
Proof.
  split.
  - apply (proj2 (proj2 sensor_callado_sin_efecto) 3 estado_callado).
    repeat constructor.
  - apply (proj1 (proj2 sensor_callado_sin_efecto)
                 [Evaluar; Leer 0 (of_Z 30); Evaluar] estado_callado).
    simpl. repeat constructor.
Defined.

(** The same sessions under the constructor of the specification: the
    statement does not rest on the failing class call. *)
Example sesion_con_un_sensor_callado :
  let st := mkEstado (mkGestor [T2_callado; T1] dos_notificadores []) (mkMundo [] [] 0) in
  ejecutar_con (evaluar_con Alerta_spec_create) [Evaluar; Leer 0 (of_Z 30); Evaluar] st
  = ejecutar_con (evaluar_omitiendo_con Alerta_spec_create 0)
                 [Evaluar; Leer 0 (of_Z 30); Evaluar] st /\
  List.length (_historial (gestor (snd
     (ejecutar_con (evaluar_con Alerta_spec_create)
                   [Evaluar; Leer 0 (of_Z 30); Evaluar] st)))) = 2.
Proof. split; reflexivity. Qed.

(** * Further properties of the sensors *)

(** ** The window from any starting buffer *)

Lemma ultimos_todo {A : Type} (k : nat) (l : list A) :
  (List.length l <= k)%nat -> ultimos k l = l.
Proof.
  intros H. unfold ultimos.
  replace (List.length l - k)%nat with 0%nat by lia. reflexivity.
Qed.

Lemma ultimos_app_ultimos {A : Type} (k j : nat) (l r : list A) :
  (j <= List.length l)%nat -> (k <= j + List.length r)%nat ->
  ultimos k (ultimos j l ++ r) = ultimos k (l ++ r).
Proof.
  intros Hj Hk. unfold ultimos.
  rewrite !length_app, length_skipn.
  replace (List.length l + List.length r - k)%nat
    with ((List.length l - (List.length l - j) + List.length r - k) + (List.length l - j))%nat
    by lia.
  rewrite <- skipn_skipn. f_equal.
  rewrite skipn_app.
  replace (List.length l - j - List.length l)%nat with 0%nat by lia.
  reflexivity.
Qed.

Lemma ventana_tras_leer_general (w : Z) (b : list float) (v : float) :
  ventana_tras_leer w b v = ultimos (longitud_tras (List.length b) 1 w) (b ++ [v]).
Proof.
  unfold ventana_tras_leer, longitud_tras, ultimos. rewrite length_app. simpl.
  destruct (Z.gtb_spec (Z.of_nat (List.length b + 1)) w) as [H|H].
  - replace (Z.to_nat (Z.max (Z.of_nat (List.length b))
                             (Z.min (Z.of_nat (List.length b + 1)) w)))
      with (List.length b) by lia.
    replace (List.length b + 1 - List.length b)%nat with 1%nat by lia.
    destruct (b ++ [v]); reflexivity.
  - replace (Z.to_nat (Z.max (Z.of_nat (List.length b))
                             (Z.min (Z.of_nat (List.length b + 1)) w)))
      with (List.length b + 1)%nat by lia.
    replace (List.length b + 1 - (List.length b + 1))%nat with 0%nat by lia.
    reflexivity.
Qed.

Lemma longitud_tras_paso (len0 n : nat) (w : Z) :
  longitud_tras (longitud_tras len0 1 w) n w = longitud_tras len0 (S n) w.
Proof. unfold longitud_tras. lia. Qed.

Lemma alimentar_desde_cualquier_buffer_aux (s : Sensor) (valores : list float) :
  alimentar valores s
  = Ok (con_buffer s
          (ultimos (longitud_tras (List.length (_buffer s)) (List.length valores) (ventana s))
                   (_buffer s ++ calibrados (_calibracion s) valores))) /\
  (List.length (_buffer s)
   <= longitud_tras (List.length (_buffer s)) (List.length valores) (ventana s))%nat.
Proof.
  split; [|unfold longitud_tras; lia].
  revert s. induction valores as [|v r IH]; intros s.
  - simpl. rewrite app_nil_r, ultimos_todo.
    + destruct s; reflexivity.
    + unfold longitud_tras. lia.
  - simpl alimentar. rewrite leer_ok. simpl ligar. rewrite IH. simpl.
    rewrite ventana_tras_leer_general.
    assert (Hl : List.length (ultimos (longitud_tras (List.length (_buffer s)) 1 (ventana s))
                                      (_buffer s ++ [add v (_calibracion s)]))
                 = longitud_tras (List.length (_buffer s)) 1 (ventana s)).
    { rewrite ultimos_length, length_app. simpl. unfold longitud_tras. lia. }
    rewrite Hl, longitud_tras_paso.
    rewrite ultimos_app_ultimos.
    + rewrite <- app_assoc. reflexivity.
    + rewrite length_app. simpl. unfold longitud_tras. lia.
    + unfold calibrados, longitud_tras. rewrite length_map. lia.
Qed.

(** Whatever the window (positive or not) and whatever buffer the sensor
    starts with (empty, partly filled, or longer than the window), feeding
    readings keeps a suffix of the old buffer followed by the calibrated
    readings: each [leer] appends one value and evicts at most the oldest
    one.  The buffer grows up to the window and never shrinks, so a buffer
    that starts longer than the window keeps its length; identifier,
    window, offset and thresholds are untouched. *)
Theorem alimentar_desde_cualquier_buffer (s : Sensor) (valores : list float) :
  let n := longitud_tras (List.length (_buffer s)) (List.length valores) (ventana s) in
  alimentar valores s
  = Ok (con_buffer s (ultimos n (_buffer s ++ calibrados (_calibracion s) valores))) /\
  List.length (ultimos n (_buffer s ++ calibrados (_calibracion s) valores)) = n /\
  (List.length (_buffer s) <= n)%nat.
Proof.
  cbv zeta. destruct (alimentar_desde_cualquier_buffer_aux s valores) as [H1 H2].
  split; [exact H1|]. split; [|exact H2].
  rewrite ultimos_length, length_app. unfold calibrados. rewrite length_map.
  unfold longitud_tras. lia.
Qed.

(** ** A NaN in the window *)

Lemma is_nan_eq (x : float) : is_nan x = true -> x = nan.
Proof. destruct x; simpl; try discriminate. reflexivity. Qed.

Lemma add_nan_r (x : float) : add x nan = nan.
Proof. destruct x; reflexivity. Qed.

Lemma fold_add_desde_nan (l : list float) : fold_left add l nan = nan.
Proof. induction l as [|x r IH]; [reflexivity | exact IH]. Qed.

Lemma fold_add_con_nan (l : list float) (z : float) :
  In nan l -> fold_left add l z = nan.
Proof.
  revert z. induction l as [|x r IH]; intros z H; [destruct H|].
  destruct H as [H|H]; simpl.
  - subst x. rewrite add_nan_r. apply fold_add_desde_nan.
  - apply IH. exact H.
Qed.

Lemma mean_con_nan (xs : list float) : In nan xs -> mean xs = Ok nan.
Proof.
  intros H. unfold mean. destruct xs as [|x r]; [destruct H|].
  assert (Hf : forallb is_finite (x :: r) = false).
  { destruct (forallb is_finite (x :: r)) eqn:E; [|reflexivity].
    rewrite forallb_forall in E. specialize (E nan H). discriminate. }
  rewrite Hf. unfold nonfinite_sum. rewrite fold_add_con_nan; [reflexivity|].
  apply filter_In. split; [exact H | reflexivity].
Qed.

Lemma promedio_y_alerta_con_nan (s : Sensor) :
  In nan (_buffer s) ->
  promedio s = Ok nan /\
  en_alerta s = Ok (es_presion (clase s)).
Proof.
  intros H.
  assert (Hp : promedio s = Ok nan).
  { unfold promedio. destruct (_buffer s) as [|x r] eqn:E; [destruct H|].
    apply mean_con_nan. exact H. }
  split; [exact Hp|].
  unfold en_alerta. rewrite Hp.
  destruct (clase s) as [u|u|pmax pmin]; cbn [ligar es_presion].
  - destruct (nan_compara_falso u) as [_ [Hc _]].
    unfold ge. fold (le u nan). rewrite Hc. reflexivity.
  - destruct (nan_compara_falso u) as [_ [Hc _]].
    change (abs nan) with nan. unfold ge. fold (le u nan). rewrite Hc. reflexivity.
  - destruct (nan_compara_falso pmin) as [_ [Hc _]]. rewrite Hc. reflexivity.
Qed.

(** While a NaN sits in the buffer the average is NaN, so the comparisons
    of the predicates are all false: a temperature or vibration sensor
    cannot alert, whatever its other readings, and a pressure sensor
    alerts, whatever its bounds. *)
Theorem nan_en_la_ventana (s : Sensor) :
  In nan (_buffer s) ->
  promedio s = Ok nan /\
  en_alerta s = Ok (es_presion (clase s)) /\
  (forall umbral, clase s = SensorTemperatura umbral -> en_alerta s = Ok false) /\
  (forall rms_umbral, clase s = SensorVibracion rms_umbral -> en_alerta s = Ok false) /\
  (forall pmax pmin, clase s = SensorPresion pmax pmin -> en_alerta s = Ok true).
Proof.
  intros H. destruct (promedio_y_alerta_con_nan s H) as [Hp He].
  split; [exact Hp|]. split; [exact He|].
  repeat split; intros; rewrite He;
    match goal with Hc : clase s = _ |- _ => rewrite Hc end; reflexivity.
Qed.

Lemma nan_en_la_ventana_witness :
  en_alerta (mkSensor "T" 5 zero [of_Z 500; nan; of_Z 500] (SensorTemperatura (of_Z 80)))
  = Ok false.
Proof.
  apply (proj1 (proj2 (nan_en_la_ventana
                  (mkSensor "T" 5 zero [of_Z 500; nan; of_Z 500]
                            (SensorTemperatura (of_Z 80)))
                  (or_intror (or_introl eq_refl))))).
Defined.

(** With a window of at least one, a reading whose calibrated value is NaN
    (a NaN reading, a NaN offset, or opposite infinities) is stored, and
    from that moment the sensor is in the state above. *)
Theorem leer_nan (v : float) (s : Sensor) :
  (0 < ventana s)%Z ->
  is_nan (add v (_calibracion s)) = true ->
  exists s',
    leer v s = Ok s' /\
    In nan (_buffer s') /\
    promedio s' = Ok nan /\
    en_alerta s' = Ok (es_presion (clase s)).
Proof.
  intros Hw Hn. rewrite leer_ok. eexists. split; [reflexivity|].
  assert (Hin : In nan (ventana_tras_leer (ventana s) (_buffer s) (add v (_calibracion s)))).
  { rewrite (is_nan_eq _ Hn). unfold ventana_tras_leer.
    destruct (_buffer s) as [|x r].
    - simpl. destruct (Z.gtb_spec 1 (ventana s)); [lia|]. left; reflexivity.
    - destruct (Z.of_nat (List.length ((x :: r) ++ [nan])) >? ventana s)%Z; simpl.
      + apply in_or_app. right. left. reflexivity.
      + right. apply in_or_app. right. left. reflexivity. }
  split; [exact Hin|].
  apply (promedio_y_alerta_con_nan
           (con_buffer s (ventana_tras_leer (ventana s) (_buffer s)
                                            (add v (_calibracion s)))) Hin).
Qed.

Lemma leer_nan_witness :
  exists s',
    leer nan (mkSensor "V" 2 zero [of_Z 9; of_Z 9] (SensorVibracion (of_dyadic 5 (-1))))
    = Ok s' /\ en_alerta s' = Ok false.
Proof.
  destruct (leer_nan nan
              (mkSensor "V" 2 zero [of_Z 9; of_Z 9] (SensorVibracion (of_dyadic 5 (-1))))
              eq_refl eq_refl) as [s' [H1 [_ [_ H4]]]].
  exists s'. split; [exact H1 | exact H4].
Defined.

(** ** A sensor without readings *)

(** The average of an empty buffer is [0.0], and it is compared with the
    thresholds like any other: a pressure sensor whose minimum is above
    zero (the default minimum is 1.0) is in alert before its first
    reading, while a temperature or vibration sensor with a threshold above
    zero is not. *)
Theorem sensor_sin_lecturas (s : Sensor) :
  _buffer s = [] ->
  match clase s with
  | SensorTemperatura umbral =>
      en_alerta s = Ok (ge zero umbral) /\
      (lt zero umbral = true -> en_alerta s = Ok false)
  | SensorVibracion rms_umbral =>
      en_alerta s = Ok (ge zero rms_umbral) /\
      (lt zero rms_umbral = true -> en_alerta s = Ok false)
  | SensorPresion presion_max presion_min =>
      en_alerta s = Ok (negb (le presion_min zero && le zero presion_max)) /\
      (lt zero presion_min = true -> en_alerta s = Ok true)
  end.
Proof.
  intros Hb. unfold en_alerta, promedio. rewrite Hb.
  destruct (clase s) as [u|u|pmax pmin]; cbn [ligar];
    (split; [reflexivity|]); intros H.
  - rewrite (lt_no_ge zero u H). reflexivity.
  - change (abs zero) with zero. rewrite (lt_no_ge zero u H). reflexivity.
  - pose proof (lt_no_ge zero pmin H) as Hg. unfold ge in Hg. unfold le at 1.
    rewrite Hg. reflexivity.
Qed.

Lemma sensor_sin_lecturas_witness :
  en_alerta (nuevo_sensor "P1" 5 zero (SensorPresion (of_Z 100) (of_Z 1))) = Ok true.
Proof.
  apply (proj2 (sensor_sin_lecturas
                  (nuevo_sensor "P1" 5 zero (SensorPresion (of_Z 100) (of_Z 1)))
                  eq_refl)).
  reflexivity.
Defined.

(** ** The RMS helper *)

Lemma signo_falso (b : bool) : negb b = true -> b = false.
Proof. destruct b; [discriminate | reflexivity]. Qed.

Lemma binary_round_aux_signo (m e : Z) (l : location) :
  signo_positivo (binary_round_aux prec emax false m e l) = true.
Proof.
  unfold binary_round_aux.
  destruct (shr_fexp prec emax m e l) as [mrs e1].
  destruct (shr_fexp prec emax _ e1 loc_Exact) as [mrs2 e2].
  destruct (shr_m mrs2); try reflexivity.
  destruct (e2 <=? emax - prec)%Z; reflexivity.
Qed.

Lemma binary_round_signo (m : positive) (e : Z) :
  signo_positivo (binary_round prec emax false m e) = true.
Proof.
  unfold binary_round.
  destruct (shl_align m e _) as [mz ez]. apply binary_round_aux_signo.
Qed.

Lemma of_Z_signo (n : nat) : signo_positivo (of_Z (Z.of_nat n)) = true.
Proof.
  unfold of_Z, of_dyadic, binary_normalize.
  destruct (Z.of_nat n) eqn:E; try reflexivity.
  - apply binary_round_signo.
  - lia.
Qed.

Lemma mul_mismo_signo (x : float) : signo_positivo (mul x x) = true.
Proof.
  destruct x as [s|s| |s m e]; unfold mul, SFmul;
    rewrite ?xorb_nilpotent; try reflexivity.
  apply binary_round_aux_signo.
Qed.

Lemma add_signo (x y : float) :
  signo_positivo x = true -> signo_positivo y = true ->
  signo_positivo (add x y) = true.
Proof.
  destruct x as [sx|sx| |sx mx ex], y as [sy|sy| |sy my ey]; simpl;
    intros Hx Hy;
    try (apply signo_falso in Hx; subst sx);
    try (apply signo_falso in Hy; subst sy);
    try reflexivity.
  unfold add, SFadd. cbn [cond_Zopp]. unfold binary_normalize.
  destruct (Z.min ex ey) as [|p|p];
    match goal with
    | |- context [(Z.pos ?a + Z.pos ?b)%Z] =>
        change (Z.pos a + Z.pos b)%Z with (Z.pos (a + b))
    end; apply binary_round_signo.
Qed.

Lemma div_signo (x y : float) :
  signo_positivo x = true -> signo_positivo y = true ->
  signo_positivo (div x y) = true.
Proof.
  destruct x as [sx|sx| |sx mx ex], y as [sy|sy| |sy my ey]; simpl;
    intros Hx Hy;
    try (apply signo_falso in Hx; subst sx);
    try (apply signo_falso in Hy; subst sy);
    try reflexivity.
  unfold div, SFdiv. cbn [xorb].
  destruct (SFdiv_core_binary prec emax (Z.pos mx) ex (Z.pos my) ey) as [[mz ez] lz].
  apply binary_round_aux_signo.
Qed.

Lemma sqrt_signo (x : float) :
  signo_positivo x = true -> signo_positivo (sqrt x) = true.
Proof.
  destruct x as [s|s| |s m e]; simpl; intros Hx;
    try (apply signo_falso in Hx; subst s); try reflexivity.
  unfold sqrt, SFsqrt.
  destruct (SFsqrt_core_binary prec emax (Z.pos m) e) as [[mz ez] lz].
  apply binary_round_aux_signo.
Qed.

Lemma signo_no_menor (x : float) : signo_positivo x = true -> lt x zero = false.
Proof.
  destruct x as [s|s| |s m e]; simpl; intros Hx;
    try (apply signo_falso in Hx; subst s); reflexivity.
Qed.

Lemma suma_cuadrados_ok (xs : list float) (acc t : float) :
  signo_positivo acc = true ->
  suma_cuadrados xs acc = Ok t -> signo_positivo t = true.
Proof.
  revert acc. induction xs as [|x r IH]; intros acc Ha; simpl.
  - intros [= <-]. exact Ha.
  - unfold cuadrado. destruct (is_finite x && negb (is_finite (mul x x))); [discriminate|].
    simpl. apply IH. apply add_signo; [exact Ha | apply mul_mismo_signo].
Qed.

Lemma suma_cuadrados_lanza (xs : list float) (acc : float) (e : excepcion) :
  suma_cuadrados xs acc = Lanza e ->
  e = OverflowError "(34, 'Numerical result out of range')" /\
  exists x, In x xs /\ is_finite x = true /\ is_finite (mul x x) = false.
Proof.
  revert acc. induction xs as [|x r IH]; intros acc; simpl; [discriminate|].
  unfold cuadrado. destruct (is_finite x && negb (is_finite (mul x x))) eqn:E; simpl.
  - intros [= <-]. split; [reflexivity|]. exists x.
    apply andb_true_iff in E. destruct E as [E1 E2].
    apply negb_true_iff in E2. auto.
  - intros H. destruct (IH _ H) as [He [y [Hy Hf]]].
    split; [exact He|]. exists y. split; [right; exact Hy | exact Hf].
Qed.

Lemma suma_cuadrados_desborda (xs : list float) (acc : float) :
  (exists x, In x xs /\ is_finite x = true /\ is_finite (mul x x) = false) ->
  suma_cuadrados xs acc = Lanza (OverflowError "(34, 'Numerical result out of range')").
Proof.
  revert acc. induction xs as [|x r IH]; intros acc [y [Hy [F1 F2]]]; [destruct Hy|].
  simpl. unfold cuadrado.
  destruct (is_finite x && negb (is_finite (mul x x))) eqn:E; [reflexivity|].
  simpl. apply IH. destruct Hy as [<-|Hy].
  - rewrite F1, F2 in E. discriminate.
  - exists y. auto.
Qed.

(** [calcular_rms] returns [0.0] on an empty buffer instead of dividing by
    zero.  On any buffer it either returns a value that is not negative
    (the radicand, a sum of squares over a positive count, never has its
    sign bit set, so [** 0.5] stays real), or raises [OverflowError]; it
    raises exactly when the square of some finite reading overflows, a
    failure that [en_alerta] on the same sensor does not have. *)
Theorem calcular_rms_resultados (s : Sensor) :
  (_buffer s = [] -> calcular_rms s = Ok zero) /\
  (forall r, calcular_rms s = Ok r -> signo_positivo r = true /\ lt r zero = false) /\
  (forall t, suma_cuadrados (_buffer s) (of_Z 0) = Ok t ->
             signo_positivo (div t (of_Z (Z.of_nat (List.length (_buffer s))))) = true) /\
  ((exists x, In x (_buffer s) /\ is_finite x = true /\ is_finite (mul x x) = false) <->
   calcular_rms s = Lanza (OverflowError "(34, 'Numerical result out of range')")) /\
  (forall e, calcular_rms s = Lanza e ->
             e = OverflowError "(34, 'Numerical result out of range')") /\
  (exists b, en_alerta s = Ok b).
Proof.
  assert (Hrad : forall t, suma_cuadrados (_buffer s) (of_Z 0) = Ok t ->
             signo_positivo (div t (of_Z (Z.of_nat (List.length (_buffer s))))) = true).
  { intros t Ht. apply div_signo; [|apply of_Z_signo].
    apply (suma_cuadrados_ok (_buffer s) (of_Z 0) t); [reflexivity | exact Ht]. }
  split; [|split; [|split; [|split; [|split]]]].
  - intros H. unfold calcular_rms. rewrite H. reflexivity.
  - intros r. unfold calcular_rms. destruct (_buffer s) as [|x l] eqn:Hb.
    + intros [= <-]. split; reflexivity.
    + destruct (suma_cuadrados (x :: l) (of_Z 0)) as [t|e] eqn:Ht; [|discriminate].
      simpl. intros [= <-].
      assert (Hs : signo_positivo
                     (sqrt (div t (of_Z (Z.of_nat (List.length (x :: l)))))) = true)
        by (apply sqrt_signo, Hrad; reflexivity).
      split; [exact Hs | apply signo_no_menor; exact Hs].
  - exact Hrad.
  - unfold calcular_rms. split.
    + intros H. destruct (_buffer s) as [|x l] eqn:Hb.
      * destruct H as [y [[] _]].
      * rewrite (suma_cuadrados_desborda (x :: l) (of_Z 0) H). reflexivity.
    + destruct (_buffer s) as [|x l] eqn:Hb; [discriminate|].
      destruct (suma_cuadrados (x :: l) (of_Z 0)) as [t|e] eqn:Ht; [discriminate|].
      intros _. apply (suma_cuadrados_lanza _ _ _ Ht).
  - intros e. unfold calcular_rms. destruct (_buffer s) as [|x l] eqn:Hb; [discriminate|].
    destruct (suma_cuadrados (x :: l) (of_Z 0)) as [t|e'] eqn:Ht; [discriminate|].
    simpl. intros [= <-]. apply (suma_cuadrados_lanza _ _ _ Ht).
  - apply en_alerta_total.
Qed.

Lemma calcular_rms_resultados_witness :
  calcular_rms (mkSensor "V" 5 zero [of_Z 2; of_dyadic 1 600] (SensorVibracion (of_Z 1)))
  = Lanza (OverflowError "(34, 'Numerical result out of range')").
Proof.
  apply (proj1 (proj1 (proj2 (proj2 (proj2 (calcular_rms_resultados
           (mkSensor "V" 5 zero [of_Z 2; of_dyadic 1 600] (SensorVibracion (of_Z 1))))))))).
  exists (of_dyadic 1 600). split; [right; left; reflexivity | split; reflexivity].
Defined.

(** * Further properties of the cycle *)

Section CicloComoFuncion.

Variable construir : string -> string -> nat -> NivelAlerta -> resultado Alerta.

Lemma enviar_a_todos (msg : string) (ns : list Notificador) (st : Estado) :
  para_cada (fun n => enviar n msg) ns st
  = (Ok tt,
     mkEstado (gestor st)
              (mkMundo (salida (mundo st) ++ renglones (map (fun n => (n, msg)) ns))
                       (envios (mundo st) ++ map (fun n => (n, msg)) ns)
                       (reloj (mundo st)))).
Proof.
  revert st. induction ns as [|n r IH]; intros [g [sa en re]].
  - simpl. rewrite !app_nil_r. reflexivity.
  - simpl. unfold bind. simpl. rewrite IH. simpl.
    rewrite <- !app_assoc. reflexivity.
Qed.

Lemma en_alerta_b_falso (s : Sensor) : en_alerta_b s = false -> callado s.
Proof.
  unfold en_alerta_b, callado. destruct (en_alerta_total s) as [[|] ->];
    [discriminate | reflexivity].
Qed.

Lemma en_alerta_b_cierto (s : Sensor) : en_alerta_b s = true -> alarmado s.
Proof.
  unfold en_alerta_b, alarmado. destruct (en_alerta s) as [[|]|e];
    [reflexivity | discriminate | discriminate].
Qed.

Lemma atender_alarmado_falla (s : Sensor) (st : Estado) (e : excepcion) :
  alarmado s ->
  construir (id s) (mensaje_de s) (reloj (mundo st)) CRITICO = Lanza e ->
  atender construir s st = (Lanza e, tras_reloj st).
Proof.
  intros Ha Hc. unfold atender. desplegar. rewrite Ha.
  unfold mensaje_de in Hc. destruct (promedio_total s) as [p Hp].
  rewrite Hp in *. destruct st as [[sens ns h] [sa en re]].
  cbn in Hc. cbn. rewrite Hc. reflexivity.
Qed.

Lemma atender_alarmado_construye (s : Sensor) (st : Estado) (a : Alerta) :
  alarmado s ->
  construir (id s) (mensaje_de s) (reloj (mundo st)) CRITICO = Ok a ->
  atender construir s st = (Ok tt, tras_alerta a (mensaje_de s) st).
Proof.
  intros Ha Hc. unfold atender. desplegar. rewrite Ha.
  unfold mensaje_de in *. destruct (promedio_total s) as [p Hp].
  rewrite Hp in *. destruct st as [[sens ns h] [sa en re]].
  cbn in Hc. cbn. rewrite Hc. cbn.
  rewrite enviar_a_todos. reflexivity.
Qed.

Lemma tras_ciclo_callado (s : Sensor) (r : list Sensor) (st : Estado) :
  en_alerta_b s = false ->
  tras_ciclo construir (s :: r) st = tras_ciclo construir r st.
Proof.
  intros Eb. unfold tras_ciclo. cbn [filter]. rewrite Eb. reflexivity.
Qed.

Lemma tras_ciclo_falla (s : Sensor) (r : list Sensor) (st : Estado) (e : excepcion) :
  en_alerta_b s = true ->
  construir (id s) (mensaje_de s) (reloj (mundo st)) CRITICO = Lanza e ->
  tras_ciclo construir (s :: r) st = (Lanza e, tras_reloj st).
Proof.
  intros Eb Hc. unfold tras_ciclo, tras_reloj. cbn [filter]. rewrite Eb.
  cbn [construir_todas]. rewrite Hc.
  destruct st as [[sens ns h] [sa en re]].
  cbn. rewrite !app_nil_r.
  replace (re + 0 + 1) with (S re) by lia. reflexivity.
Qed.

Lemma tras_ciclo_construye (s : Sensor) (r : list Sensor) (st : Estado) (a : Alerta) :
  en_alerta_b s = true ->
  construir (id s) (mensaje_de s) (reloj (mundo st)) CRITICO = Ok a ->
  tras_ciclo construir (s :: r) st
  = tras_ciclo construir r (tras_alerta a (mensaje_de s) st).
Proof.
  intros Eb Hc. unfold tras_ciclo, tras_alerta. cbn [filter]. rewrite Eb.
  cbn [construir_todas]. rewrite Hc.
  destruct st as [[sens ns h] [sa en re]].
  cbn [gestor mundo _sensores _notificadores _historial salida envios reloj].
  destruct (construir_todas construir (S re) (filter en_alerta_b r)) as [l o].
  cbn [List.length firstn map]. unfold difusion. cbn [flat_map].
  unfold renglones. rewrite !map_app, <- !app_assoc. cbn [app].
  replace (re + S (List.length l) + match o with None => 0 | Some _ => 1 end)
    with (S re + List.length l + match o with None => 0 | Some _ => 1 end)
    by lia.
  reflexivity.
Qed.

Lemma para_cada_atender_tras_ciclo (ss : list Sensor) (st : Estado) :
  para_cada (atender construir) ss st = tras_ciclo construir ss st.
Proof.
  revert st. induction ss as [|s r IH]; intros st.
  - destruct st as [[sens ns h] [sa en re]]. unfold tras_ciclo. cbn.
    rewrite !app_nil_r, !Nat.add_0_r. reflexivity.
  - cbn [para_cada]. unfold bind at 1.
    destruct (en_alerta_b s) eqn:Eb.
    + pose proof (en_alerta_b_cierto s Eb) as Ha.
      destruct (construir (id s) (mensaje_de s) (reloj (mundo st)) CRITICO)
        as [a|e] eqn:Hc.
      * rewrite (atender_alarmado_construye s st a Ha Hc), IH.
        symmetry. apply tras_ciclo_construye; assumption.
      * rewrite (atender_alarmado_falla s st e Ha Hc).
        symmetry. apply tras_ciclo_falla; assumption.
    + rewrite (atender_callado construir s st (en_alerta_b_falso s Eb)), IH.
      symmetry. apply tras_ciclo_callado. exact Eb.
Qed.

Lemma construir_todas_longitud (t : nat) (alarmados : list Sensor) :
  List.length (fst (construir_todas construir t alarmados)) <= List.length alarmados.
Proof.
  revert t. induction alarmados as [|s r IH]; intros t; simpl; [lia|].
  destruct (construir (id s) (mensaje_de s) t CRITICO) as [a|e]; simpl; [|lia].
  specialize (IH (S t)). destruct (construir_todas construir (S t) r) as [l o].
  simpl in *. lia.
Qed.

Lemma construir_todas_fallo (t : nat) (alarmados : list Sensor) (e : excepcion) :
  snd (construir_todas construir t alarmados) = Some e ->
  exists s t', In s alarmados /\ construir (id s) (mensaje_de s) t' CRITICO = Lanza e.
Proof.
  revert t. induction alarmados as [|s r IH]; intros t; simpl; [discriminate|].
  destruct (construir (id s) (mensaje_de s) t CRITICO) as [a|e'] eqn:E; simpl.
  - specialize (IH (S t)). destruct (construir_todas construir (S t) r) as [l o].
    simpl in *. intros H. destruct (IH H) as [s' [t' [Hin Hc]]].
    exists s', t'. split; [right; exact Hin | exact Hc].
  - intros [= <-]. exists s, t. split; [left; reflexivity | exact E].
Qed.

Lemma difusion_longitud (ns : list Notificador) (msgs : list string) :
  List.length (difusion ns msgs) = List.length msgs * List.length ns.
Proof.
  unfold difusion. induction msgs as [|m r IH]; [reflexivity|].
  simpl. rewrite length_app, length_map, IH. reflexivity.
Qed.

End CicloComoFuncion.

Lemma evaluar_con_tras_ciclo
      (construir : string -> string -> nat -> NivelAlerta -> resultado Alerta)
      (st : Estado) :
  evaluar_con construir st = tras_ciclo construir (_sensores (gestor st)) st.
Proof.
  rewrite <- para_cada_atender_tras_ciclo. reflexivity.
Qed.

(** Whatever the call of the class [Alerta] does, one cycle is this
    function of the state: the sensors in alert are taken in registration
    order; for each one the clock is read and the constructor called with
    the sensor's id, its message, that reading and CRITICO; every alert
    built is appended to the history and its message sent to every
    notifier in registration order, one printed line per send, before the
    next sensor is looked at; the first exception of the constructor ends
    the cycle and keeps what was done before it. *)
Theorem ciclo_como_funcion
        (construir : string -> string -> nat -> NivelAlerta -> resultado Alerta)
        (st : Estado) :
  let g := gestor st in
  let w := mundo st in
  let alarmados := filter en_alerta_b (_sensores g) in
  let nuevas := fst (construir_todas construir (reloj w) alarmados) in
  let fallo := snd (construir_todas construir (reloj w) alarmados) in
  let es := difusion (_notificadores g)
                     (map mensaje_de (firstn (List.length nuevas) alarmados)) in
  evaluar_con construir st
  = (match fallo with None => Ok tt | Some e => Lanza e end,
     mkEstado (mkGestor (_sensores g) (_notificadores g) (_historial g ++ nuevas))
              (mkMundo (salida w ++ renglones es) (envios w ++ es)
                       (reloj w + List.length nuevas
                        + match fallo with None => 0 | Some _ => 1 end))).
Proof.
  cbv zeta. rewrite evaluar_con_tras_ciclo. unfold tras_ciclo.
  destruct (construir_todas construir (reloj (mundo st))
              (filter en_alerta_b (_sensores (gestor st)))) as [l o].
  reflexivity.
Qed.

(** Whatever the constructor does and however the cycle ends, the history
    and the send log only grow, the output gains exactly the lines of the
    new sends, and the new sends number (new alerts) x (notifiers): no
    alert is recorded without being sent to everyone, and nothing is sent
    without an alert recorded.  Sensors and notifiers are left as they
    were. *)
Theorem envios_por_alerta
        (construir : string -> string -> nat -> NivelAlerta -> resultado Alerta)
        (st : Estado) :
  let st' := snd (evaluar_con construir st) in
  exists nuevas es,
    _historial (gestor st') = _historial (gestor st) ++ nuevas /\
    envios (mundo st') = envios (mundo st) ++ es /\
    salida (mundo st') = salida (mundo st) ++ renglones es /\
    List.length es = List.length nuevas * List.length (_notificadores (gestor st)) /\
    Forall (fun nm => In (fst nm) (_notificadores (gestor st))) es /\
    _sensores (gestor st') = _sensores (gestor st) /\
    _notificadores (gestor st') = _notificadores (gestor st).
Proof.
  cbv zeta. rewrite evaluar_con_tras_ciclo. unfold tras_ciclo.
  pose proof (construir_todas_longitud construir (reloj (mundo st))
                (filter en_alerta_b (_sensores (gestor st)))) as Hl.
  destruct (construir_todas construir (reloj (mundo st))
              (filter en_alerta_b (_sensores (gestor st)))) as [l o].
  cbn [fst snd gestor mundo _historial envios salida _sensores _notificadores] in *.
  eexists. eexists. repeat split.
  - rewrite difusion_longitud, length_map, length_firstn. f_equal. lia.
  - apply Forall_forall. intros [n m] H. unfold difusion in H.
    apply in_flat_map in H. destruct H as [m' [_ H]].
    apply in_map_iff in H. destruct H as [n' [[= <- <-] Hn]]. exact Hn.
Qed.

(** A cycle can fail in one place only: an exception that leaves it is one
    the constructor of [Alerta] raised, called for a sensor of the manager
    that is in alert, with that sensor's id and message and level
    CRITICO.  Computing averages, evaluating predicates, formatting and
    sending raise nothing. *)
Theorem solo_falla_el_constructor
        (construir : string -> string -> nat -> NivelAlerta -> resultado Alerta)
        (st : Estado) (e : excepcion) :
  fst (evaluar_con construir st) = Lanza e ->
  exists s t,
    In s (_sensores (gestor st)) /\
    alarmado s /\
    construir (id s) (mensaje_de s) t CRITICO = Lanza e.
Proof.
  rewrite evaluar_con_tras_ciclo. unfold tras_ciclo.
  pose proof (construir_todas_fallo construir (reloj (mundo st))
                (filter en_alerta_b (_sensores (gestor st))) e) as Hf.
  destruct (construir_todas construir (reloj (mundo st))
              (filter en_alerta_b (_sensores (gestor st)))) as [l o].
  cbn [fst snd] in *. destruct o as [e'|]; [|discriminate].
  intros [= ->]. destruct (Hf eq_refl) as [s [t [Hin Hc]]].
  apply filter_In in Hin. destruct Hin as [Hin Hb].
  exists s, t. split; [exact Hin|]. split; [|exact Hc].
  apply en_alerta_b_cierto. exact Hb.
Qed.

Lemma solo_falla_el_constructor_witness :
  exists s t,
    In s [T1] /\ alarmado s /\
    Alerta_llamada (id s) (mensaje_de s) t CRITICO
    = Lanza (TypeError "Alerta() takes no arguments").
Proof.
  apply (solo_falla_el_constructor Alerta_llamada estado_T1
           (TypeError "Alerta() takes no arguments") eq_refl).
Defined.

(** ** What the program never does *)

(** In the program as it stands the call of [Alerta] always raises, so over
    any session of readings and cycles, from any state, the history, the
    send log, the output and the notifiers are never changed: no alert is
    ever recorded and no notification is ever sent. *)
Theorem sesion_sin_registro_ni_envio (acciones : list accion) (st : Estado) :
  let st' := snd (ejecutar acciones st) in
  _historial (gestor st') = _historial (gestor st) /\
  _notificadores (gestor st') = _notificadores (gestor st) /\
  envios (mundo st') = envios (mundo st) /\
  salida (mundo st') = salida (mundo st).
Proof.
  cbv zeta. unfold ejecutar, ejecutar_con. revert st.
  induction acciones as [|a r IH]; intros st; [repeat split|].
  cbn [para_cada]. unfold bind. destruct a as [i v|]; cbn [paso].
  - destruct (leer_en i v (_sensores (gestor st))) as [ss|e]; [|repeat split].
    destruct (IH (con_sensores ss st)) as [H1 [H2 [H3 H4]]].
    repeat split; assumption.
  - destruct (evaluar_marco st) as [Hg [He Hs]].
    destruct (evaluar_y_notificar st) as [[[]|e] st1]; cbn [snd] in *.
    + destruct (IH st1) as [H1 [H2 [H3 H4]]].
      rewrite H1, H2, H3, H4, Hg, He, Hs. repeat split.
    + rewrite Hg, He, Hs. repeat split.
Qed.

(** ** The printed lines *)

Lemma cadena_app_assoc (a b c : string) :
  ((a ++ b) ++ c)%string = (a ++ b ++ c)%string.
Proof. induction a as [|x a IH]; simpl; [reflexivity | rewrite IH; reflexivity]. Qed.

(** Every notifier prints a line that ends with the message it was given,
    after a non-empty tag; and lines printed by notifiers of different
    classes are never equal, whatever their destinations and messages, so
    the channel can be read off the output. *)
Theorem lineas_por_canal :
  (forall n m, exists pre, linea_impresa n m = (pre ++ m)%string /\ pre <> ""%string) /\
  (forall n1 n2 m1 m2,
      linea_impresa n1 m1 = linea_impresa n2 m2 -> misma_clase n1 n2 = true).
Proof.
  split.
  - intros [d|u|t] m; simpl.
    + exists ("[EMAIL a " ++ d ++ "] ")%string. split; [|discriminate].
      simpl. rewrite cadena_app_assoc. reflexivity.
    + exists ("[WEBHOOK " ++ u ++ "] ")%string. split; [|discriminate].
      simpl. rewrite cadena_app_assoc. reflexivity.
    + exists ("[SMS a " ++ t ++ "] ")%string. split; [|discriminate].
      simpl. rewrite cadena_app_assoc. reflexivity.
  - intros [d1|u1|t1] [d2|u2|t2] m1 m2; simpl; intros H;
      try reflexivity; discriminate H.
Qed.

(** ** Forgetting *)

(** A sensor whose buffer is not longer than its positive window forgets:
    after any readings followed by a full window of readings [xs], its
    buffer is exactly the calibrated [xs], whatever it held and whatever
    came before.  Its average and its alert state then depend on [xs]
    alone; in particular a NaN or an outlier stops counting once a full
    window of readings has followed it. *)
Theorem ventana_olvida (s : Sensor) (previos xs : list float) :
  (0 < ventana s)%Z ->
  (Z.of_nat (List.length (_buffer s)) <= ventana s)%Z ->
  Z.of_nat (List.length xs) = ventana s ->
  alimentar (previos ++ xs) s = Ok (con_buffer s (calibrados (_calibracion s) xs)) /\
  alimentar (previos ++ xs) s = alimentar xs (con_buffer s []).
Proof.
  intros Hw Hb Hx.
  assert (H1 : alimentar (previos ++ xs) s
               = Ok (con_buffer s (calibrados (_calibracion s) xs))).
  { destruct (alimentar_desde_cualquier_buffer_aux s (previos ++ xs)) as [-> _].
    f_equal. f_equal. unfold calibrados. rewrite map_app, app_assoc.
    unfold ultimos, longitud_tras. rewrite !length_app, !length_map.
    replace (List.length (_buffer s) + List.length previos + List.length xs
             - Z.to_nat (Z.max (Z.of_nat (List.length (_buffer s)))
                               (Z.min (Z.of_nat (List.length (_buffer s)
                                                  + (List.length previos + List.length xs)))
                                      (ventana s))))%nat
      with (List.length (_buffer s ++ map (fun v => add v (_calibracion s)) previos) + 0)%nat
      by (rewrite length_app, length_map; lia).
    rewrite skipn_app, Nat.add_0_r, skipn_all.
    replace (List.length _ - List.length _)%nat with 0%nat by lia.
    reflexivity. }
  split; [exact H1|]. rewrite H1.
  destruct (alimentar_desde_cualquier_buffer_aux (con_buffer s []) xs) as [-> _].
  unfold con_buffer. cbn [_buffer _calibracion ventana id clase app List.length].
  rewrite ultimos_todo; [reflexivity|].
  unfold calibrados, longitud_tras. rewrite length_map. lia.
Qed.

Lemma ventana_olvida_witness :
  ligar (alimentar ([of_Z 500] ++ [of_Z 1; of_Z 2])
                   (mkSensor "T" 2 zero [nan] (SensorTemperatura (of_Z 80))))
        en_alerta
  = Ok false.
Proof.
  rewrite (proj1 (ventana_olvida
                    (mkSensor "T" 2 zero [nan] (SensorTemperatura (of_Z 80)))
                    [of_Z 500] [of_Z 1; of_Z 2]
                    eq_refl ltac:(simpl; lia) eq_refl)).
  reflexivity.
Defined.

(** ** The level of the recorded alerts *)

Lemma construir_todas_nivel
      (construir : string -> string -> nat -> NivelAlerta -> resultado Alerta)
      (t : nat) (alarmados : list Sensor) :
  (forall i m h n a, construir i m h n = Ok a -> nivel a = n) ->
  forallb es_critica (fst (construir_todas construir t alarmados)) = true.
Proof.
  intros Hc. revert t. induction alarmados as [|s r IH]; intros t; [reflexivity|].
  simpl. destruct (construir (id s) (mensaje_de s) t CRITICO) as [a|e] eqn:E;
    [|reflexivity].
  specialize (IH (S t)). destruct (construir_todas construir (S t) r) as [l o].
  simpl in *. rewrite IH, andb_true_r. unfold es_critica.
  rewrite (Hc _ _ _ _ _ E). reflexivity.
Qed.

(** The cycle asks for level CRITICO only: with any constructor that stores
    the level it is given, every alert a cycle adds to the history answers
    [es_critica] with true; NORMAL and ADVERTENCIA are never produced. *)
Theorem alertas_registradas_criticas
        (construir : string -> string -> nat -> NivelAlerta -> resultado Alerta)
        (st : Estado) :
  (forall i m h n a, construir i m h n = Ok a -> nivel a = n) ->
  exists nuevas,
    _historial (gestor (snd (evaluar_con construir st)))
    = _historial (gestor st) ++ nuevas /\
    forallb es_critica nuevas = true.
Proof.
  intros Hc. rewrite evaluar_con_tras_ciclo. unfold tras_ciclo.
  pose proof (construir_todas_nivel construir (reloj (mundo st))
                (filter en_alerta_b (_sensores (gestor st))) Hc) as Hn.
  destruct (construir_todas construir (reloj (mundo st))
              (filter en_alerta_b (_sensores (gestor st)))) as [l o].
  exists l. split; [reflexivity | exact Hn].
Qed.

Lemma alertas_registradas_criticas_witness :
  exists nuevas,
    _historial (gestor (snd (evaluar_con Alerta_spec_create estado_T1))) = [] ++ nuevas /\
    forallb es_critica nuevas = true.
Proof.
  apply (alertas_registradas_criticas Alerta_spec_create estado_T1).
  intros i m h n a [= <-]. reflexivity.
Defined.
